(** * humandns53: the DNS responder of humandns, embedded from dnsserver.go

    The definitions come first: the Go runtime pieces the server leans on
    (fixed-width integers, [bytes.Buffer], [encoding/binary], [strings]),
    the two record types, the name codec ([readDomainName],
    [writeDomainName]), the resolver [dbLookup] and the request handler
    [handleDNSClient].  The properties of the name codec, of the resolver
    and of the handler follow.

    Conventions.  A Go [string] is a Rocq [string] (a sequence of 8-bit
    characters), a [[]byte] and the unread part of a [bytes.Buffer] are
    [list byte], unsigned integers are [Z] with the wrap-around of every
    conversion written out, and a Go [error] is an [option error] whose
    [None] is [nil].  A run-time panic (index or slice bounds out of range)
    is the [Panic] outcome of [Result]. *)

From Stdlib Require Import ZArith List Strings.String Strings.Ascii Strings.Byte Lia Bool.
Import ListNotations.

Local Open Scope string_scope.
Local Open Scope list_scope.
Local Open Scope Z_scope.

(** ** Outcome of Go code that may panic *)

Inductive Result (A : Type) : Type :=
| Ok (a : A)
| Panic.

Arguments Ok {A} a.
Arguments Panic {A}.

Definition bind {A B : Type} (r : Result A) (k : A -> Result B) : Result B :=
  match r with
  | Ok a => k a
  | Panic => Panic
  end.

Notation "x <- r ;; k" := (bind r (fun x => k))
  (at level 61, r at next level, right associativity).
Notation "' p <- r ;; k" := (bind r (fun p => k))
  (at level 61, p pattern, r at next level, right associativity).

(** ** Fixed-width integers *)

(** The conversions [uint16(x)], [uint32(x)] and [byte(x)] keep the low bits. *)
Definition uint16 (x : Z) : Z := x mod 2 ^ 16.
Definition uint32 (x : Z) : Z := x mod 2 ^ 32.

Definition byte_of_Z (x : Z) : byte :=
  match Byte.of_N (Z.to_N (x mod 256)) with
  | Some b => b
  | None => x00
  end.

(** [int(b)] for a byte [b]. *)
Definition Z_of_byte (b : byte) : Z := Z.of_N (Byte.to_N b).

(** [len(s)] for a string and for a slice. *)
Definition len (s : string) : Z := Z.of_nat (String.length s).
Definition llen {A : Type} (l : list A) : Z := Z.of_nat (List.length l).

(** ** Go errors met in the handler *)

Inductive error : Type :=
| EOF
| ErrUnexpectedEOF.

(** ** [bytes.Buffer], as its unread bytes *)

Module Buffer.

Definition t : Type := list byte.

(** [ReadByte] returns [(0, io.EOF)] on an empty buffer. *)
Definition ReadByte (buf : t) : byte * option error * t :=
  match buf with
  | [] => (x00, Some EOF, [])
  | b :: rest => (b, None, rest)
  end.

(** [Next(n)] returns the next [n] bytes, or all of them when fewer
    than [n] are left, and advances past them. *)
Definition Next (n : Z) (buf : t) : list byte * t :=
  (firstn (Z.to_nat n) buf, skipn (Z.to_nat n) buf).

Definition WriteByte (buf : t) (c : byte) : t * option error :=
  (buf ++ [c], None).

Definition Write (buf : t) (p : list byte) : t :=
  buf ++ p.

End Buffer.

(** ** [encoding/binary], big endian *)

Module BigEndian.

(** [uint16(b1) | uint16(b0)<<8] *)
Definition be16 (b0 b1 : byte) : Z :=
  Z.lor (Z_of_byte b1) (Z.shiftl (Z_of_byte b0) 8).

(** [Uint16(b)] starts with the bounds check [_ = b[1]], which panics on
    a slice shorter than two bytes. *)
Definition Uint16 (b : list byte) : Result Z :=
  match b with
  | b0 :: b1 :: _ => Ok (be16 b0 b1)
  | _ => Panic
  end.

End BigEndian.

(** ** [strings] *)

Definition dot : ascii := "."%char.

(** [strings.Split(s, ".")]: the pieces of [s] between the dots, one more
    than there are dots; [Split ""] is the one-element list of the empty
    string. *)
Fixpoint Split (s : string) : list string :=
  match s with
  | EmptyString => [EmptyString]
  | String c s' =>
      if Ascii.eqb c dot then EmptyString :: Split s'
      else match Split s' with
           | piece :: pieces => String c piece :: pieces
           | [] => [String c EmptyString]
           end
  end.

(** [strings.Contains(s, substr)]. *)
Fixpoint Contains (s substr : string) : bool :=
  String.prefix substr s ||
  match s with
  | EmptyString => false
  | String _ s' => Contains s' substr
  end.

(** ** The records of dnsserver.go *)

Record DNSHeader : Type := {
  TransactionID : Z;
  Flags : Z;
  NumQuestions : Z;
  NumAnswers : Z;
  NumAuthorities : Z;
  NumAdditionals : Z
}.

Record DNSResourceRecord : Type := {
  DomainName : string;
  Type_ : Z;
  Class : Z;
  TimeToLive : Z;
  ResourceDataLength : Z;
  ResourceData : list byte
}.

Definition TypeA : Z := 1.
Definition TypeAAAA : Z := 28.
Definition ClassINET : Z := 1.
Definition FlagResponse : Z := Z.shiftl 1 15.
Definition UDPMaxMessageSizeBytes : Z := 512.

(** The zero values [make] and [var] fill in. *)
Definition zeroHeader : DNSHeader :=
  {| TransactionID := 0; Flags := 0; NumQuestions := 0;
     NumAnswers := 0; NumAuthorities := 0; NumAdditionals := 0 |}.

Definition zeroRecord : DNSResourceRecord :=
  {| DomainName := ""; Type_ := 0; Class := 0; TimeToLive := 0;
     ResourceDataLength := 0; ResourceData := [] |}.

(** ** Name codec *)

(** One turn of the [for] loop of [readDomainName] per unit of [fuel]: the
    loop is entered with the byte [b] and the error [err] of the last
    [ReadByte]; its body takes the label, extends [domainName] and reads the
    next length octet.  Every turn consumes the length octet read before it,
    so [S (length buf)] turns are never used up (lemma
    [readDomainName_loop_fuel]). *)
Fixpoint readDomainName_loop (fuel : nat) (domainName : string)
    (b : byte) (err : option error) (buf : Buffer.t)
    : string * option error * Buffer.t :=
  match fuel with
  | O => (domainName, err, buf)
  | S fuel' =>
      match Byte.eqb b x00, err with
      | false, None =>
          let labelLength := Z_of_byte b in
          let '(labelBytes, buf1) := Buffer.Next labelLength buf in
          let labelName := string_of_list_byte labelBytes in
          let domainName' :=
            if len domainName =? 0 then labelName
            else (domainName ++ "." ++ labelName)%string in
          let '(b', err', buf2) := Buffer.ReadByte buf1 in
          readDomainName_loop fuel' domainName' b' err' buf2
      | _, _ => (domainName, err, buf)
      end
  end.

Definition readDomainName (requestBuffer : Buffer.t)
    : string * option error * Buffer.t :=
  let '(b, err, buf) := Buffer.ReadByte requestBuffer in
  readDomainName_loop (S (List.length requestBuffer)) "" b err buf.

(** The body of the [range labels] loop of [writeDomainName]. *)
Definition writeLabel (responseBuffer : Buffer.t) (label : string) : Buffer.t :=
  let labelLength := len label in
  let labelBytes := list_byte_of_string label in
  let responseBuffer := fst (Buffer.WriteByte responseBuffer (byte_of_Z labelLength)) in
  Buffer.Write responseBuffer labelBytes.

Definition writeDomainName (responseBuffer : Buffer.t) (domainName : string)
    : Buffer.t * option error :=
  let labels := Split domainName in
  let responseBuffer := fold_left writeLabel labels responseBuffer in
  Buffer.WriteByte responseBuffer (byte_of_Z 0).


(** ** Slices *)

(** The slice expression [s[lo:hi]] with constant bounds [lo <= hi]: it
    panics unless [hi <= cap(s)].  The only slice it is applied to is the
    result of [net.ParseIP], whose capacity is its length. *)
Definition slice (s : list byte) (lo hi : Z) : Result (list byte) :=
  if hi <=? llen s
  then Ok (firstn (Z.to_nat (hi - lo)) (skipn (Z.to_nat lo) s))
  else Panic.

(** [recs[idx].field = v], for an index in range. *)
Fixpoint update (idx : nat) (f : DNSResourceRecord -> DNSResourceRecord)
    (recs : list DNSResourceRecord) : list DNSResourceRecord :=
  match recs, idx with
  | [], _ => []
  | r :: recs', O => f r :: recs'
  | r :: recs', S idx' => r :: update idx' f recs'
  end.

Definition set_DomainName (v : string) (r : DNSResourceRecord) :=
  {| DomainName := v; Type_ := Type_ r; Class := Class r;
     TimeToLive := TimeToLive r; ResourceDataLength := ResourceDataLength r;
     ResourceData := ResourceData r |}.

Definition set_Type (v : Z) (r : DNSResourceRecord) :=
  {| DomainName := DomainName r; Type_ := v; Class := Class r;
     TimeToLive := TimeToLive r; ResourceDataLength := ResourceDataLength r;
     ResourceData := ResourceData r |}.

Definition set_Class (v : Z) (r : DNSResourceRecord) :=
  {| DomainName := DomainName r; Type_ := Type_ r; Class := v;
     TimeToLive := TimeToLive r; ResourceDataLength := ResourceDataLength r;
     ResourceData := ResourceData r |}.

(** ** [binary.Read] of the header *)

(** [binary.Read(requestBuffer, binary.BigEndian, &queryHeader)] takes the
    twelve bytes of the six fields with [io.ReadFull]; when fewer are left
    it drains the buffer, reports the error and leaves the header at its
    zero value. *)
Definition readHeader (requestBuffer : Buffer.t)
    : DNSHeader * option error * Buffer.t :=
  match requestBuffer with
  | i0 :: i1 :: f0 :: f1 :: q0 :: q1 :: a0 :: a1 :: n0 :: n1 :: r0 :: r1 :: rest =>
      ({| TransactionID := BigEndian.be16 i0 i1;
          Flags := BigEndian.be16 f0 f1;
          NumQuestions := BigEndian.be16 q0 q1;
          NumAnswers := BigEndian.be16 a0 a1;
          NumAuthorities := BigEndian.be16 n0 n1;
          NumAdditionals := BigEndian.be16 r0 r1 |}, None, rest)
  | [] => (zeroHeader, Some EOF, [])
  | _ => (zeroHeader, Some ErrUnexpectedEOF, [])
  end.

(** ** The writer [Write] *)

(** Modelled from the spec: [Write(responseBuffer, data)], the repository's
    own binary writer, is not part of dnsserver.go.  The spec has it write a
    16-bit field as 2 bytes and the 32-bit TTL as 4 bytes, big endian, the
    resource data as its raw bytes, and the header as its six 16-bit fields
    in declaration order. *)
Definition Write_uint16 (w : Buffer.t) (v : Z) : Buffer.t :=
  w ++ [byte_of_Z (Z.shiftr v 8); byte_of_Z v].

(** Modelled from the spec: [Write] of a [uint32], the TTL, 4 bytes big
    endian. *)
Definition Write_uint32 (w : Buffer.t) (v : Z) : Buffer.t :=
  w ++ [byte_of_Z (Z.shiftr v 24); byte_of_Z (Z.shiftr v 16);
        byte_of_Z (Z.shiftr v 8); byte_of_Z v].

(** Modelled from the spec: [Write] of a [[]byte], the resource data, as
    its raw bytes. *)
Definition Write_bytes (w : Buffer.t) (p : list byte) : Buffer.t :=
  w ++ p.

(** Modelled from the spec: [Write] of the header, its six fields in
    turn. *)
Definition Write_header (w : Buffer.t) (h : DNSHeader) : Buffer.t :=
  let w := Write_uint16 w (TransactionID h) in
  let w := Write_uint16 w (Flags h) in
  let w := Write_uint16 w (NumQuestions h) in
  let w := Write_uint16 w (NumAnswers h) in
  let w := Write_uint16 w (NumAuthorities h) in
  Write_uint16 w (NumAdditionals h).

(** ** Resolver and request handler *)

Section Server.

(** What the server is linked against and configured with:
    [redisClient.Get(key).Val()], the empty string when the key is absent;
    [net.ParseIP], whose result is [nil] (the empty list) for a string that
    is no IP address literal; and the [--expiry] flag, a Go [uint]. *)
Variable redisGet : string -> string.
Variable ParseIP : string -> list byte.
Variable ExpiryTimeInSeconds : Z.

Definition Lookup : Type :=
  (list DNSResourceRecord * list DNSResourceRecord * list DNSResourceRecord)%type.

Definition dbLookup (queryResourceRecord : DNSResourceRecord) : Result Lookup :=
  let answerResourceRecords : list DNSResourceRecord := [] in
  let authorityResourceRecords : list DNSResourceRecord := [] in
  let additionalResourceRecords : list DNSResourceRecord := [] in
  if negb (Class queryResourceRecord =? ClassINET) then
    Ok (answerResourceRecords, authorityResourceRecords, additionalResourceRecords)
  else if (Type_ queryResourceRecord =? TypeA)
          || (Type_ queryResourceRecord =? TypeAAAA) then
    let resolvedAddress := redisGet (DomainName queryResourceRecord) in
    if String.eqb resolvedAddress "" then
      Ok (answerResourceRecords, authorityResourceRecords, additionalResourceRecords)
    else
      let parsedAddress := ParseIP resolvedAddress in
      if Contains (DomainName queryResourceRecord) "ip4" then
        if Type_ queryResourceRecord =? TypeA then
          ipv4 <- slice parsedAddress 12 16 ;;
          Ok (answerResourceRecords ++
                [ {| DomainName := DomainName queryResourceRecord;
                     Type_ := TypeA;
                     Class := ClassINET;
                     TimeToLive := uint32 ExpiryTimeInSeconds;
                     ResourceData := ipv4;
                     ResourceDataLength := 4 |} ],
              authorityResourceRecords, additionalResourceRecords)
        else
          Ok (answerResourceRecords, authorityResourceRecords, additionalResourceRecords)
      else if Contains (DomainName queryResourceRecord) "ip6" then
        if Type_ queryResourceRecord =? TypeAAAA then
          Ok (answerResourceRecords ++
                [ {| DomainName := DomainName queryResourceRecord;
                     Type_ := TypeAAAA;
                     Class := ClassINET;
                     TimeToLive := uint32 ExpiryTimeInSeconds;
                     ResourceData := parsedAddress;
                     ResourceDataLength := 16 |} ],
              authorityResourceRecords, additionalResourceRecords)
        else
          Ok (answerResourceRecords, authorityResourceRecords,
              additionalResourceRecords ++
                [ {| DomainName := DomainName queryResourceRecord;
                     Type_ := TypeAAAA;
                     Class := ClassINET;
                     TimeToLive := uint32 ExpiryTimeInSeconds;
                     ResourceData := parsedAddress;
                     ResourceDataLength := 16 |} ])
      else
        Ok (answerResourceRecords, authorityResourceRecords, additionalResourceRecords)
  else
    Ok (answerResourceRecords, authorityResourceRecords, additionalResourceRecords).

(** *** handleDNSClient, "read request" *)

(** The body of [for idx, _ := range queryResourceRecords]: the name, then
    type and class, each assigned to [queryResourceRecords[idx]].  A name
    that fails to decode is logged and the loop goes on. *)
Definition readQuestion (idx : nat)
    (queryResourceRecords : list DNSResourceRecord) (requestBuffer : Buffer.t)
    : Result (list DNSResourceRecord * Buffer.t) :=
  let '(domainName, err, requestBuffer) := readDomainName requestBuffer in
  let queryResourceRecords := update idx (set_DomainName domainName) queryResourceRecords in
  let '(b, requestBuffer) := Buffer.Next 2 requestBuffer in
  ty <- BigEndian.Uint16 b ;;
  let queryResourceRecords := update idx (set_Type ty) queryResourceRecords in
  let '(b, requestBuffer) := Buffer.Next 2 requestBuffer in
  cl <- BigEndian.Uint16 b ;;
  let queryResourceRecords := update idx (set_Class cl) queryResourceRecords in
  Ok (queryResourceRecords, requestBuffer).

Fixpoint readQuestions (idxs : list nat)
    (queryResourceRecords : list DNSResourceRecord) (requestBuffer : Buffer.t)
    : Result (list DNSResourceRecord * Buffer.t) :=
  match idxs with
  | [] => Ok (queryResourceRecords, requestBuffer)
  | idx :: idxs' =>
      '(queryResourceRecords, requestBuffer) <-
        readQuestion idx queryResourceRecords requestBuffer ;;
      readQuestions idxs' queryResourceRecords requestBuffer
  end.

(** Lines 199 to 220: header and questions of a request. *)
Definition decodeRequest (requestBytes : list byte)
    : Result (DNSHeader * list DNSResourceRecord) :=
  let requestBuffer : Buffer.t := requestBytes in
  let '(queryHeader, err, requestBuffer) := readHeader requestBuffer in
  let n := Z.to_nat (NumQuestions queryHeader) in
  let queryResourceRecords := repeat zeroRecord n in
  '(queryResourceRecords, _) <-
    readQuestions (seq 0 n) queryResourceRecords requestBuffer ;;
  Ok (queryHeader, queryResourceRecords).

(** *** handleDNSClient, "lookup values" *)

Fixpoint lookupAll (queryResourceRecords : list DNSResourceRecord)
    (acc : Lookup) : Result Lookup :=
  match queryResourceRecords with
  | [] => Ok acc
  | queryResourceRecord :: rest =>
      let '(answerResourceRecords, authorityResourceRecords,
            additionalResourceRecords) := acc in
      '(newAnswerRR, newAuthorityRR, newAdditionalRR) <-
        dbLookup queryResourceRecord ;;
      lookupAll rest
        (answerResourceRecords ++ newAnswerRR,
         authorityResourceRecords ++ newAuthorityRR,
         additionalResourceRecords ++ newAdditionalRR)
  end.

(** *** handleDNSClient, "write response" *)

Definition writeQuestion (responseBuffer : Buffer.t)
    (queryResourceRecord : DNSResourceRecord) : Buffer.t :=
  let '(responseBuffer, err) :=
    writeDomainName responseBuffer (DomainName queryResourceRecord) in
  let responseBuffer := Write_uint16 responseBuffer (Type_ queryResourceRecord) in
  Write_uint16 responseBuffer (Class queryResourceRecord).

Definition writeRecord (responseBuffer : Buffer.t)
    (resourceRecord : DNSResourceRecord) : Buffer.t :=
  let '(responseBuffer, err) :=
    writeDomainName responseBuffer (DomainName resourceRecord) in
  let responseBuffer := Write_uint16 responseBuffer (Type_ resourceRecord) in
  let responseBuffer := Write_uint16 responseBuffer (Class resourceRecord) in
  let responseBuffer := Write_uint32 responseBuffer (TimeToLive resourceRecord) in
  let responseBuffer := Write_uint16 responseBuffer (ResourceDataLength resourceRecord) in
  Write_bytes responseBuffer (ResourceData resourceRecord).

(** Lines 243 to 250. *)
Definition makeResponseHeader (queryHeader : DNSHeader)
    (answerResourceRecords authorityResourceRecords
     additionalResourceRecords : list DNSResourceRecord) : DNSHeader :=
  {| TransactionID := TransactionID queryHeader;
     Flags := FlagResponse;
     NumQuestions := NumQuestions queryHeader;
     NumAnswers := uint16 (llen answerResourceRecords);
     NumAuthorities := uint16 (llen authorityResourceRecords);
     NumAdditionals := uint16 (llen additionalResourceRecords) |}.

(** Lines 252 to 309: the header and the four sections. *)
Definition writeResponse (responseHeader : DNSHeader)
    (queryResourceRecords answerResourceRecords authorityResourceRecords
     additionalResourceRecords : list DNSResourceRecord) : Buffer.t :=
  let responseBuffer : Buffer.t := [] in
  let responseBuffer := Write_header responseBuffer responseHeader in
  let responseBuffer := fold_left writeQuestion queryResourceRecords responseBuffer in
  let responseBuffer := fold_left writeRecord answerResourceRecords responseBuffer in
  let responseBuffer := fold_left writeRecord authorityResourceRecords responseBuffer in
  fold_left writeRecord additionalResourceRecords responseBuffer.

(** Lines 240 to 309. *)
Definition encodeResponse (queryHeader : DNSHeader)
    (queryResourceRecords answerResourceRecords authorityResourceRecords
     additionalResourceRecords : list DNSResourceRecord) : Buffer.t :=
  writeResponse
    (makeResponseHeader queryHeader answerResourceRecords
       authorityResourceRecords additionalResourceRecords)
    queryResourceRecords answerResourceRecords authorityResourceRecords
    additionalResourceRecords.

(** The handler; its result is the datagram handed to [WriteToUDP], and
    [Panic] when the goroutine panics before it gets there. *)
Definition handleDNSClient (requestBytes : list byte) : Result (list byte) :=
  '(queryHeader, queryResourceRecords) <- decodeRequest requestBytes ;;
  '(answerResourceRecords, authorityResourceRecords, additionalResourceRecords) <-
    lookupAll queryResourceRecords ([], [], []) ;;
  Ok (encodeResponse queryHeader queryResourceRecords answerResourceRecords
        authorityResourceRecords additionalResourceRecords).

(** [main] hands the handler its whole receive buffer of
    [UDPMaxMessageSizeBytes] bytes: the datagram, cut to that size and
    followed by the zero bytes [make] put there. *)
Definition receiveBuffer (datagram : list byte) : list byte :=
  let n := Z.to_nat UDPMaxMessageSizeBytes in
  firstn n datagram ++ repeat x00 (n - List.length datagram).

Definition serve (datagram : list byte) : Result (list byte) :=
  handleDNSClient (receiveBuffer datagram).

(** The record the "ip4" branch of [dbLookup] builds once the slice
    [parsedAddress[12:16]] is taken: bytes 12 to 15 of the 16-byte form,
    the four octets of an IPv4 address. *)
Definition recordA (q : DNSResourceRecord) : DNSResourceRecord :=
  {| DomainName := DomainName q; Type_ := TypeA; Class := ClassINET;
     TimeToLive := uint32 ExpiryTimeInSeconds;
     ResourceDataLength := 4;
     ResourceData := firstn 4 (skipn 12 (ParseIP (redisGet (DomainName q)))) |}.

(** The record the "ip6" branch of [dbLookup] builds. *)
Definition recordAAAA (q : DNSResourceRecord) : DNSResourceRecord :=
  {| DomainName := DomainName q; Type_ := TypeAAAA; Class := ClassINET;
     TimeToLive := uint32 ExpiryTimeInSeconds;
     ResourceDataLength := 16;
     ResourceData := ParseIP (redisGet (DomainName q)) |}.

End Server.

(** ** Messages *)

(** A message is the header together with the four record lists the handler
    keeps in its local variables. *)
Record Message : Type := {
  header : DNSHeader;
  questions : list DNSResourceRecord;
  answers : list DNSResourceRecord;
  authorities : list DNSResourceRecord;
  additionals : list DNSResourceRecord
}.

(** Decoding is the "read request" part of the handler: it reads the header
    and the questions and nothing after them; the answer, authority and
    additional lists of a request start out empty (lines 225 to 227). *)
Definition decode (bytes : list byte) : Result Message :=
  '(queryHeader, queryResourceRecords) <- decodeRequest bytes ;;
  Ok {| header := queryHeader;
        questions := queryResourceRecords;
        answers := [];
        authorities := [];
        additionals := [] |}.

(** Encoding is the "write response" part of the handler. *)
Definition encode (m : Message) : list byte :=
  encodeResponse (header m) (questions m) (answers m) (authorities m)
    (additionals m).

(** ** Vocabulary of the statements about names *)

(** A label as it travels on the wire: at least one byte, since the zero
    length octet ends the name, and at most 255, the most a length octet
    holds. *)
Definition wire_label (l : string) : Prop := 1 <= len l <= 255.

Definition encodeLabel (l : string) : list byte :=
  byte_of_Z (len l) :: list_byte_of_string l.

Definition encodeLabels (labels : list string) : list byte :=
  flat_map encodeLabel labels.

(** The reader meets a zero length octet where a length octet is due: the
    buffer starts with whole labels followed by that octet. *)
Definition Terminated (buf : list byte) : Prop :=
  exists labels tail,
    Forall wire_label labels /\ buf = encodeLabels labels ++ x00 :: tail.

(** How the loop body extends the name by a label. *)
Definition joinLabel (domainName labelName : string) : string :=
  if len domainName =? 0 then labelName
  else (domainName ++ "." ++ labelName)%string.

(** [readDomainName] from the [ReadByte] that enters a turn of the loop. *)
Definition scan (fuel : nat) (domainName : string) (buf : Buffer.t)
    : string * option error * Buffer.t :=
  let '(b, err, buf') := Buffer.ReadByte buf in
  readDomainName_loop fuel domainName b err buf'.

(** A name none of whose dot-separated labels is empty. *)
Definition no_empty_label (domainName : string) : Prop :=
  Forall (fun label => label <> "") (Split domainName).

(** [decode_name(encode_name(n))]. *)
Definition decode_encode_name (domainName : string)
    : string * option error * Buffer.t :=
  readDomainName (fst (writeDomainName [] domainName)).

(** A single label of 256 letters [a]. *)
Definition label256 : string := string_of_list_byte (repeat x61 256).

(** ** A store, a parser and queries to run the server on *)

Definition exampleStore (key : string) : string :=
  if String.eqb key "foo.ip4" then "127.0.0.1"
  else if String.eqb key "bar.ip6" then "::1"
  else if String.eqb key "both.ip4.ip6" then "127.0.0.1"
  else if String.eqb key "six.ip4" then "::1"
  else if String.eqb key "bad.ip4" then "localhost"
  else if String.eqb key "bad.ip6" then "localhost"
  else "".

(** [net.ParseIP] on the two literals of the store: the 16-byte forms of
    127.0.0.1 and of ::1. *)
Definition exampleParseIP (s : string) : list byte :=
  if String.eqb s "127.0.0.1" then
    [x00; x00; x00; x00; x00; x00; x00; x00; x00; x00; xff; xff;
     x7f; x00; x00; x01]
  else if String.eqb s "::1" then
    [x00; x00; x00; x00; x00; x00; x00; x00; x00; x00; x00; x00;
     x00; x00; x00; x01]
  else [].

Definition question (domainName : string) (type : Z) : DNSResourceRecord :=
  {| DomainName := domainName; Type_ := type; Class := ClassINET;
     TimeToLive := 0; ResourceDataLength := 0; ResourceData := [] |}.

(** A header whose six fields are 16-bit values. *)
Definition header_in_range (h : DNSHeader) : Prop :=
  0 <= TransactionID h < 2 ^ 16 /\ 0 <= Flags h < 2 ^ 16 /\
  0 <= NumQuestions h < 2 ^ 16 /\ 0 <= NumAnswers h < 2 ^ 16 /\
  0 <= NumAuthorities h < 2 ^ 16 /\ 0 <= NumAdditionals h < 2 ^ 16.

(** A query for "foo.ip4", type A, class IN, as [dig] sends it: ID 0x1234,
    the recursion-desired flag, one question. *)
Definition exampleQuery : list byte :=
  [x12; x34; x01; x00; x00; x01; x00; x00; x00; x00; x00; x00;
   x03; x66; x6f; x6f; x03; x69; x70; x34; x00; x00; x01; x00; x01].

(** The same datagram with a question count of 2: the second question is
    read from the zero bytes that follow the datagram in the receive
    buffer. *)
Definition exampleQuery2 : list byte :=
  [x12; x34; x01; x00; x00; x02; x00; x00; x00; x00; x00; x00;
   x03; x66; x6f; x6f; x03; x69; x70; x34; x00; x00; x01; x00; x01].

(** ** Vocabulary of the statements about messages *)

(** A record with every field in the range of its wire format: a name of
    labels of 1 to 255 bytes, 16-bit type and class, a 32-bit TTL and a
    16-bit data length that is the length of the data. *)
Definition record_in_range (r : DNSResourceRecord) : Prop :=
  Forall wire_label (Split (DomainName r)) /\
  0 <= Type_ r < 2 ^ 16 /\ 0 <= Class r < 2 ^ 16 /\
  0 <= TimeToLive r < 2 ^ 32 /\
  ResourceDataLength r = llen (ResourceData r) /\
  ResourceDataLength r < 2 ^ 16.

(** A question carries a name, a type and a class and nothing else. *)
Definition question_only (q : DNSResourceRecord) : Prop :=
  TimeToLive q = 0 /\ ResourceDataLength q = 0 /\ ResourceData q = [].

Definition well_formed (m : Message) : Prop :=
  header_in_range (header m) /\
  Forall (fun q => record_in_range q /\ question_only q) (questions m) /\
  Forall record_in_range (answers m) /\
  Forall record_in_range (authorities m) /\
  Forall record_in_range (additionals m).

Definition counts_match (m : Message) : Prop :=
  NumQuestions (header m) = llen (questions m) /\
  NumAnswers (header m) = llen (answers m) /\
  NumAuthorities (header m) = llen (authorities m) /\
  NumAdditionals (header m) = llen (additionals m).

(** What is left of a message after encoding and decoding: the flags are
    the response bit, and the records after the questions are not read. *)
Definition as_decoded (m : Message) : Message :=
  {| header :=
       {| TransactionID := TransactionID (header m);
          Flags := FlagResponse;
          NumQuestions := NumQuestions (header m);
          NumAnswers := NumAnswers (header m);
          NumAuthorities := NumAuthorities (header m);
          NumAdditionals := NumAdditionals (header m) |};
     questions := questions m;
     answers := [];
     authorities := [];
     additionals := [] |}.

(** The response of the server to [exampleQuery] with "foo.ip4" stored as
    "127.0.0.1" and an expiry of 1800 seconds. *)
Definition exampleResponse : Message :=
  {| header :=
       {| TransactionID := 4660; Flags := FlagResponse; NumQuestions := 1;
          NumAnswers := 1; NumAuthorities := 0; NumAdditionals := 0 |};
     questions := [question "foo.ip4" TypeA];
     answers :=
       [ {| DomainName := "foo.ip4"; Type_ := TypeA; Class := ClassINET;
            TimeToLive := 1800; ResourceDataLength := 4;
            ResourceData := [x7f; x00; x00; x01] |} ];
     authorities := [];
     additionals := [] |}.

(** The same message as a query would carry it: no record after the
    question. *)
Definition exampleQuestionOnly : Message :=
  {| header :=
       {| TransactionID := 4660; Flags := FlagResponse; NumQuestions := 1;
          NumAnswers := 0; NumAuthorities := 0; NumAdditionals := 0 |};
     questions := [question "foo.ip4" TypeA];
     answers := [];
     authorities := [];
     additionals := [] |}.

(** ** Vocabulary of the statements about sizes, cut names and lookups *)

(** The labels before the first empty one, and those after it if there is
    one. *)
Fixpoint untilEmpty (labels : list string) : list string :=
  match labels with
  | [] => []
  | l :: ls => if len l =? 0 then [] else l :: untilEmpty ls
  end.

Fixpoint afterEmpty (labels : list string) : option (list string) :=
  match labels with
  | [] => None
  | l :: ls => if len l =? 0 then Some ls else afterEmpty ls
  end.

(** A label without the byte ".". *)
Fixpoint dotFree (s : string) : bool :=
  match s with
  | EmptyString => true
  | String c s' => negb (Ascii.eqb c dot) && dotFree s'
  end.

Definition sumZ (l : list Z) : Z := fold_right Z.add 0 l.

(** Bytes a question and a record take in a response: the name with one
    length octet per label and the closing octet, then the fixed fields. *)
Definition questionSize (q : DNSResourceRecord) : Z :=
  len (DomainName q) + 6.

Definition recordSize (r : DNSResourceRecord) : Z :=
  len (DomainName r) + 12 + llen (ResourceData r).

(** The header of a response without records to the request header [h]. *)
Definition headerOnly (h : DNSHeader) : DNSHeader :=
  {| TransactionID := TransactionID h; Flags := FlagResponse;
     NumQuestions := 0; NumAnswers := 0; NumAuthorities := 0;
     NumAdditionals := 0 |}.

(** A store that holds "127.0.0.1" for every name. *)
Definition loopbackStore (key : string) : string := "127.0.0.1".

(** A name of 241 bytes: a label of 237 letters [a], then "ip4". *)
Definition longName : string :=
  (string_of_list_byte (repeat x61 237) ++ ".ip4")%string.

(** * Properties *)

(** ** Bytes and fixed-width integers *)

Lemma Z_of_byte_range (b : byte) : 0 <= Z_of_byte b < 256.
Proof.
  unfold Z_of_byte. pose proof (Byte.to_N_bounded b). lia.
Qed.

Lemma byte_of_Z_of_byte (b : byte) : byte_of_Z (Z_of_byte b) = b.
Proof.
  unfold byte_of_Z. pose proof (Z_of_byte_range b) as Hb.
  rewrite Z.mod_small by exact Hb.
  unfold Z_of_byte. rewrite N2Z.id, Byte.of_to_N. reflexivity.
Qed.

Lemma Z_of_byte_of_Z (x : Z) : Z_of_byte (byte_of_Z x) = x mod 256.
Proof.
  unfold byte_of_Z, Z_of_byte.
  pose proof (Z.mod_pos_bound x 256 ltac:(lia)) as Hx.
  destruct (Byte.of_N (Z.to_N (x mod 256))) as [b|] eqn:E.
  - apply Byte.to_of_N in E. rewrite E. apply Z2N.id. lia.
  - apply Byte.of_N_None_iff in E.
    apply N2Z.inj_lt in E. rewrite Z2N.id in E by lia. simpl in E. lia.
Qed.

Lemma Z_of_byte_inj (a b : byte) : Z_of_byte a = Z_of_byte b -> a = b.
Proof.
  intros H. rewrite <- (byte_of_Z_of_byte a), <- (byte_of_Z_of_byte b), H.
  reflexivity.
Qed.

Lemma byte_eqb_x00 (b : byte) : Byte.eqb b x00 = (Z_of_byte b =? 0).
Proof.
  destruct (Byte.eqb b x00) eqn:E.
  - apply Byte.byte_dec_bl in E. subst b. reflexivity.
  - symmetry. apply Z.eqb_neq. intros H.
    apply Byte.eqb_false in E. apply E.
    apply Z_of_byte_inj. rewrite H. reflexivity.
Qed.

Lemma be16_arith (b0 b1 : byte) :
  BigEndian.be16 b0 b1 = Z_of_byte b0 * 256 + Z_of_byte b1.
Proof.
  unfold BigEndian.be16.
  pose proof (Z_of_byte_range b0) as H0. pose proof (Z_of_byte_range b1) as H1.
  assert (Hland : Z.land (Z_of_byte b1) (Z.shiftl (Z_of_byte b0) 8) = 0).
  { apply Z.bits_inj'. intros n Hn.
    rewrite Z.land_spec, Z.bits_0.
    destruct (Z.ltb_spec n 8) as [Hlt|Hge].
    - rewrite Z.shiftl_spec_low by lia. apply andb_false_r.
    - rewrite <- (Z.mod_small (Z_of_byte b1) (2 ^ 8)) by (change (2 ^ 8) with 256; lia).
      rewrite Z.mod_pow2_bits_high by lia. reflexivity. }
  pose proof (Z.add_lor_land (Z_of_byte b1) (Z.shiftl (Z_of_byte b0) 8)) as Hadd.
  rewrite Hland in Hadd. rewrite Z.shiftl_mul_pow2 in * by lia.
  change (2 ^ 8) with 256 in *. lia.
Qed.

Lemma be16_range (b0 b1 : byte) : 0 <= BigEndian.be16 b0 b1 < 2 ^ 16.
Proof.
  rewrite be16_arith.
  pose proof (Z_of_byte_range b0). pose proof (Z_of_byte_range b1).
  change (2 ^ 16) with 65536. lia.
Qed.

(** Reading back what [Write] put down for a 16-bit value. *)
Lemma be16_Write (v : Z) :
  0 <= v < 2 ^ 16 ->
  BigEndian.be16 (byte_of_Z (Z.shiftr v 8)) (byte_of_Z v) = v.
Proof.
  intros Hv. change (2 ^ 16) with 65536 in Hv.
  rewrite be16_arith, !Z_of_byte_of_Z, Z.shiftr_div_pow2 by lia.
  change (2 ^ 8) with 256.
  rewrite (Z.mod_small (v / 256)).
  - pose proof (Z.div_mod v 256 ltac:(lia)). lia.
  - split; [apply Z.div_pos; lia | apply Z.div_lt_upper_bound; lia].
Qed.

Lemma uint16_small (x : Z) : 0 <= x < 2 ^ 16 -> uint16 x = x.
Proof. intros H. unfold uint16. apply Z.mod_small. exact H. Qed.

Lemma uint32_small (x : Z) : 0 <= x < 2 ^ 32 -> uint32 x = x.
Proof. intros H. unfold uint32. apply Z.mod_small. exact H. Qed.

(** ** Strings *)

Lemma append_nil_r (s : string) : (s ++ "")%string = s.
Proof. induction s as [|c s IH]; simpl; [reflexivity | now rewrite IH]. Qed.

Lemma append_assoc (s1 s2 s3 : string) :
  ((s1 ++ s2) ++ s3)%string = (s1 ++ (s2 ++ s3))%string.
Proof. induction s1 as [|c s1 IH]; simpl; [reflexivity | now rewrite IH]. Qed.

Lemma len_0_iff (s : string) : len s = 0 <-> s = "".
Proof.
  unfold len. destruct s; simpl; split; intros H; try reflexivity; try lia.
  discriminate.
Qed.

Lemma length_list_byte_of_string (s : string) :
  List.length (list_byte_of_string s) = String.length s.
Proof.
  unfold list_byte_of_string. rewrite length_map.
  induction s as [|c s IH]; simpl; [reflexivity | now rewrite IH].
Qed.

Lemma length_string_of_list_byte (l : list byte) :
  String.length (string_of_list_byte l) = List.length l.
Proof.
  rewrite <- (list_byte_of_string_of_list_byte l) at 2.
  symmetry. apply length_list_byte_of_string.
Qed.

Lemma Split_not_nil (s : string) : Split s <> [].
Proof.
  induction s as [|c s IH]; simpl.
  - discriminate.
  - destruct (Ascii.eqb c dot); [discriminate|].
    destruct (Split s); discriminate.
Qed.

(** Joining the pieces of [Split] with dots gives the string back. *)
Lemma concat_Split (s : string) : String.concat "." (Split s) = s.
Proof.
  induction s as [|c s IH]; simpl.
  - reflexivity.
  - destruct (Ascii.eqb c dot) eqn:E.
    + apply Ascii.eqb_eq in E. subst c.
      pose proof (Split_not_nil s) as Hn.
      destruct (Split s) as [|p ps] eqn:Es; [contradiction|].
      simpl in *. rewrite IH. reflexivity.
    + pose proof (Split_not_nil s) as Hn.
      destruct (Split s) as [|p ps] eqn:Es; [contradiction|].
      simpl in *. destruct ps; simpl in *; rewrite <- IH; reflexivity.
Qed.

(** ** The name codec *)

Lemma scan_nil (fuel : nat) (acc : string) :
  scan (S fuel) acc [] = (acc, Some EOF, []).
Proof. reflexivity. Qed.

Lemma scan_cons (fuel : nat) (acc : string) (b : byte) (buf : list byte) :
  scan (S fuel) acc (b :: buf) =
  if Z_of_byte b =? 0 then (acc, None, buf)
  else scan fuel
         (joinLabel acc (string_of_list_byte (firstn (Z.to_nat (Z_of_byte b)) buf)))
         (skipn (Z.to_nat (Z_of_byte b)) buf).
Proof.
  unfold scan at 1. simpl. rewrite byte_eqb_x00.
  destruct (Z_of_byte b =? 0); reflexivity.
Qed.

Lemma readDomainName_scan (buf : list byte) :
  readDomainName buf = scan (S (List.length buf)) "" buf.
Proof. reflexivity. Qed.

(** The name the loop builds from [acc] and the labels it reads. *)
Lemma fold_joinLabel (labels : list string) (acc : string) :
  Forall wire_label labels ->
  fold_left joinLabel labels acc =
  if len acc =? 0 then String.concat "." labels
  else match labels with
       | [] => acc
       | _ => (acc ++ "." ++ String.concat "." labels)%string
       end.
Proof.
  revert acc. induction labels as [|l ls IH]; intros acc Hall.
  - simpl. destruct (len acc =? 0) eqn:E; [|reflexivity].
    apply Z.eqb_eq, len_0_iff in E. exact E.
  - inversion Hall as [|? ? Hl Hls]; subst. simpl fold_left.
    rewrite IH by exact Hls. unfold joinLabel.
    assert (Hl0 : (len l =? 0) = false) by (apply Z.eqb_neq; unfold wire_label in Hl; lia).
    destruct (len acc =? 0) eqn:E.
    + rewrite Hl0. destruct ls; reflexivity.
    + assert (Hn : (len (acc ++ "." ++ l)%string =? 0) = false).
      { apply Z.eqb_neq. intros H0. apply len_0_iff in H0.
        destruct acc; [discriminate E|discriminate H0]. }
      rewrite Hn. destruct ls as [|l' ls']; [reflexivity|].
      cbn [String.concat]. rewrite !append_assoc. reflexivity.
Qed.

Lemma encodeLabel_head (l : string) :
  wire_label l -> Z_of_byte (byte_of_Z (len l)) = len l.
Proof.
  intros Hl. rewrite Z_of_byte_of_Z. apply Z.mod_small.
  unfold wire_label in Hl. lia.
Qed.

(** Reading whole labels and the zero octet: the labels are joined and the
    buffer is left right after the octet. *)
Lemma scan_labels (labels : list string) (tail : list byte) :
  Forall wire_label labels ->
  forall (fuel : nat) (acc : string),
    (List.length (encodeLabels labels ++ x00 :: tail) < fuel)%nat ->
    scan fuel acc (encodeLabels labels ++ x00 :: tail)
    = (fold_left joinLabel labels acc, None, tail).
Proof.
  induction 1 as [|l ls Hl Hls IH]; intros fuel acc Hfuel.
  - destruct fuel as [|fuel]; [simpl in Hfuel; lia|]. reflexivity.
  - destruct fuel as [|fuel]; [simpl in Hfuel; lia|].
    change (encodeLabels (l :: ls))
      with ((byte_of_Z (len l) :: list_byte_of_string l) ++ encodeLabels ls) in *.
    rewrite <- !app_comm_cons in *. rewrite scan_cons.
    rewrite encodeLabel_head by exact Hl.
    assert (Hn : Z.to_nat (len l) = List.length (list_byte_of_string l)).
    { unfold len. rewrite Nat2Z.id, length_list_byte_of_string. reflexivity. }
    replace (len l =? 0) with false
      by (symmetry; apply Z.eqb_neq; unfold wire_label in Hl; lia).
    rewrite Hn, <- app_assoc.
    rewrite firstn_app, Nat.sub_diag, firstn_all, firstn_O, app_nil_r.
    rewrite skipn_app, Nat.sub_diag, skipn_all, skipn_O. simpl app.
    rewrite string_of_list_byte_of_string.
    apply IH. simpl in Hfuel. rewrite <- app_assoc, length_app in Hfuel. lia.
Qed.

Lemma not_Terminated_nil : ~ Terminated [].
Proof.
  intros (labels & tail & _ & H).
  symmetry in H. apply app_eq_nil in H. destruct H as [_ H]. discriminate H.
Qed.

(** A buffer that holds a terminated name still does once its first label
    is stepped over. *)
Lemma Terminated_step (b : byte) (buf : list byte) :
  Terminated (b :: buf) -> Z_of_byte b <> 0 ->
  Terminated (skipn (Z.to_nat (Z_of_byte b)) buf).
Proof.
  intros (labels & tail & Hall & Heq) Hb.
  destruct labels as [|l ls].
  - simpl in Heq. injection Heq as Hb0 _. subst b. contradiction Hb. reflexivity.
  - inversion Hall as [|? ? Hl Hls]; subst.
    change (encodeLabels (l :: ls))
      with ((byte_of_Z (len l) :: list_byte_of_string l) ++ encodeLabels ls) in Heq.
    rewrite <- app_comm_cons in Heq. injection Heq as Hb0 Hbuf. subst b buf.
    rewrite encodeLabel_head by exact Hl.
    replace (Z.to_nat (len l)) with (List.length (list_byte_of_string l))
      by (unfold len; rewrite Nat2Z.id; apply length_list_byte_of_string).
    rewrite <- app_assoc, skipn_app, Nat.sub_diag, skipn_all, skipn_O.
    exists ls, tail. split; [exact Hls | reflexivity].
Qed.

(** The loop, whatever it has read so far: it ends without error on the
    zero octet that follows whole labels, and with [io.EOF] when the buffer
    runs out first. *)
Lemma scan_spec (fuel : nat) :
  forall (acc : string) (buf : list byte),
    (List.length buf < fuel)%nat ->
    match scan fuel acc buf with
    | (domainName, None, rest) =>
        exists labels,
          Forall wire_label labels /\
          buf = encodeLabels labels ++ x00 :: rest /\
          domainName = fold_left joinLabel labels acc
    | (domainName, Some e, rest) =>
        e = EOF /\ rest = [] /\ ~ Terminated buf
    end.
Proof.
  induction fuel as [|fuel IH]; intros acc buf Hfuel; [lia|].
  destruct buf as [|b buf].
  - rewrite scan_nil. repeat split. apply not_Terminated_nil.
  - rewrite scan_cons. destruct (Z_of_byte b =? 0) eqn:Eb.
    + apply Z.eqb_eq in Eb.
      assert (b = x00) by (apply Z_of_byte_inj; rewrite Eb; reflexivity). subst b.
      exists []. repeat split. constructor.
    + apply Z.eqb_neq in Eb. pose proof (Z_of_byte_range b) as Hb.
      set (n := Z.to_nat (Z_of_byte b)) in *.
      set (acc' := joinLabel acc (string_of_list_byte (firstn n buf))).
      assert (Hlen : (List.length (skipn n buf) < fuel)%nat).
      { rewrite length_skipn. simpl in Hfuel. lia. }
      specialize (IH acc' (skipn n buf) Hlen).
      destruct (scan fuel acc' (skipn n buf)) as [[name [e|]] rest].
      * destruct IH as (He & Hrest & Hnt). repeat split; try assumption.
        intros Ht. apply Hnt. apply Terminated_step; assumption.
      * destruct IH as (labels & Hall & Hbuf & Hname).
        assert (Hn : List.length (firstn n buf) = n).
        { apply firstn_length_le.
          assert (List.length (skipn n buf) <> 0)%nat
            by (rewrite Hbuf, length_app; simpl; lia).
          rewrite length_skipn in *. lia. }
        exists (string_of_list_byte (firstn n buf) :: labels). repeat split.
        -- constructor; [|exact Hall]. unfold wire_label, len.
           rewrite length_string_of_list_byte, Hn. subst n. lia.
        -- change (encodeLabels (string_of_list_byte (firstn n buf) :: labels))
             with (encodeLabel (string_of_list_byte (firstn n buf)) ++ encodeLabels labels).
           unfold encodeLabel, len.
           rewrite length_string_of_list_byte, Hn, list_byte_of_string_of_list_byte.
           subst n. rewrite Z2Nat.id by lia. rewrite byte_of_Z_of_byte.
           rewrite <- !app_comm_cons, <- app_assoc, <- Hbuf, firstn_skipn.
           reflexivity.
        -- exact Hname.
Qed.

(** The number of turns handed to the loop does not matter once it exceeds
    the number of unread bytes. *)
Lemma readDomainName_loop_fuel (fuel1 : nat) :
  forall (fuel2 : nat) (acc : string) (buf : list byte),
    (List.length buf < fuel1)%nat -> (List.length buf < fuel2)%nat ->
    scan fuel1 acc buf = scan fuel2 acc buf.
Proof.
  induction fuel1 as [|fuel1 IH]; intros fuel2 acc buf H1 H2; [lia|].
  destruct fuel2 as [|fuel2]; [lia|].
  destruct buf as [|b buf]; [reflexivity|].
  rewrite !scan_cons. destruct (Z_of_byte b =? 0); [reflexivity|].
  apply IH; rewrite length_skipn; simpl in *; lia.
Qed.

(** C8. [readDomainName] returns an error exactly when the reader is
    exhausted before a zero-length label octet is found: on a buffer that
    holds whole labels followed by a zero octet it returns no error, the
    labels joined with "." (no separator before the first) and the buffer
    positioned after the octet; on every other buffer it returns [io.EOF]. *)
Theorem readDomainName_error_iff_exhausted (buf : list byte) :
  match readDomainName buf with
  | (domainName, None, rest) =>
      Terminated buf /\
      exists labels,
        Forall wire_label labels /\
        buf = encodeLabels labels ++ x00 :: rest /\
        domainName = String.concat "." labels
  | (domainName, Some e, rest) =>
      ~ Terminated buf /\ e = EOF
  end.
Proof.
  rewrite readDomainName_scan.
  pose proof (scan_spec (S (List.length buf)) "" buf (Nat.lt_succ_diag_r _)) as H.
  destruct (scan (S (List.length buf)) "" buf) as [[name [e|]] rest].
  - destruct H as (He & _ & Hnt). split; assumption.
  - destruct H as (labels & Hall & Hbuf & Hname). split.
    + exists labels, rest. split; assumption.
    + exists labels. repeat split; try assumption.
      rewrite Hname, fold_joinLabel by exact Hall. reflexivity.
Qed.

Lemma fold_writeLabel (labels : list string) (buf : list byte) :
  fold_left writeLabel labels buf = buf ++ encodeLabels labels.
Proof.
  revert buf. induction labels as [|l ls IH]; intros buf; simpl.
  - symmetry. apply app_nil_r.
  - rewrite IH. unfold writeLabel, Buffer.Write, Buffer.WriteByte, encodeLabel.
    simpl. rewrite <- !app_assoc. reflexivity.
Qed.

Lemma writeDomainName_bytes (buf : list byte) (domainName : string) :
  writeDomainName buf domainName
  = (buf ++ encodeLabels (Split domainName) ++ [x00], None).
Proof.
  unfold writeDomainName, Buffer.WriteByte.
  rewrite fold_writeLabel, <- app_assoc. reflexivity.
Qed.

(** Reading a name that was written, whatever follows it in the buffer. *)
Lemma readDomainName_writeDomainName (domainName : string) (tail : list byte) :
  Forall wire_label (Split domainName) ->
  readDomainName (fst (writeDomainName [] domainName) ++ tail)
  = (domainName, None, tail).
Proof.
  intros Hall. rewrite writeDomainName_bytes.
  cbn [fst app]. rewrite <- app_assoc. cbn [app].
  rewrite readDomainName_scan, scan_labels by (exact Hall || lia).
  rewrite fold_joinLabel by exact Hall. simpl. rewrite concat_Split. reflexivity.
Qed.

(** C6, as the code has it.  A name whose dot-separated labels are each 1
    to 255 bytes long comes back unchanged from [readDomainName] after
    [writeDomainName], with no error and nothing left in the buffer; so does
    the empty name, with the second of the two zero octets written for it
    left unread. *)
Theorem decode_encode_name_roundtrip (domainName : string) :
  domainName = "" \/ Forall wire_label (Split domainName) ->
  exists rest,
    decode_encode_name domainName = (domainName, None, rest) /\
    (domainName <> "" -> rest = []).
Proof.
  intros [He|Hall].
  - subst. exists [x00]. split; [reflexivity|]. intros H. contradiction H. reflexivity.
  - exists []. split; [|reflexivity]. unfold decode_encode_name.
    rewrite <- (app_nil_r (fst (writeDomainName [] domainName))).
    apply readDomainName_writeDomainName. exact Hall.
Qed.

Lemma decode_encode_name_roundtrip_witness :
  exists rest,
    decode_encode_name "www.example.ip4" = ("www.example.ip4", None, rest) /\
    ("www.example.ip4" <> "" -> rest = []).
Proof.
  apply (decode_encode_name_roundtrip "www.example.ip4").
  right. repeat constructor; unfold wire_label; vm_compute; discriminate.
Defined.

(** C6 as stated fails on a label of 256 bytes: the length octet written
    for it is [byte(256) = 0], which the reader takes for the end of the
    name. *)
Lemma decode_encode_name_label256 :
  no_empty_label label256 /\
  fst (fst (decode_encode_name label256)) <> label256.
Proof.
  split.
  - unfold no_empty_label. vm_compute Split. repeat constructor. discriminate.
  - intros H. vm_compute in H. discriminate H.
Qed.

(** ** The resolver *)

Lemma exampleParseIP_len (s : string) :
  exampleParseIP s = [] \/ List.length (exampleParseIP s) = 16%nat.
Proof.
  unfold exampleParseIP.
  destruct (String.eqb s "127.0.0.1"); [right; reflexivity|].
  destruct (String.eqb s "::1"); [right; reflexivity | left; reflexivity].
Qed.

Section ResolverProperties.

Variable redisGet : string -> string.
Variable ParseIP : string -> list byte.
Variable ExpiryTimeInSeconds : Z.

(** [net.ParseIP] returns [nil] or an address in its 16-byte form. *)
Hypothesis ParseIP_len :
  forall s, ParseIP s = [] \/ List.length (ParseIP s) = 16%nat.

Local Abbreviation lookup := (dbLookup redisGet ParseIP ExpiryTimeInSeconds).
Local Abbreviation recordA := (recordA redisGet ParseIP ExpiryTimeInSeconds).
Local Abbreviation recordAAAA := (recordAAAA redisGet ParseIP ExpiryTimeInSeconds).

Lemma parsed_len (s : string) :
  ParseIP s <> [] -> List.length (ParseIP s) = 16%nat.
Proof. intros H. destruct (ParseIP_len s); [contradiction | assumption]. Qed.

Lemma slice_parsed (s : string) :
  ParseIP s <> [] ->
  slice (ParseIP s) 12 16 = Ok (firstn 4 (skipn 12 (ParseIP s))).
Proof.
  intros H. unfold slice, llen. rewrite (parsed_len s H). reflexivity.
Qed.

Lemma length_ipv4 (s : string) :
  ParseIP s <> [] -> List.length (firstn 4 (skipn 12 (ParseIP s))) = 4%nat.
Proof.
  intros H. rewrite length_firstn, length_skipn, (parsed_len s H). reflexivity.
Qed.

Lemma dbLookup_ip4_A (q : DNSResourceRecord) :
  Class q = ClassINET -> Type_ q = TypeA ->
  Contains (DomainName q) "ip4" = true ->
  redisGet (DomainName q) <> "" ->
  ParseIP (redisGet (DomainName q)) <> [] ->
  lookup q = Ok ([recordA q], [], []).
Proof.
  intros Hc Ht Hn Hv Hp. unfold dbLookup.
  rewrite Hc, Ht, Hn. simpl.
  apply String.eqb_neq in Hv. rewrite Hv.
  rewrite slice_parsed by exact Hp. reflexivity.
Qed.

Lemma dbLookup_ip4_AAAA (q : DNSResourceRecord) :
  Type_ q = TypeAAAA ->
  Contains (DomainName q) "ip4" = true ->
  lookup q = Ok ([], [], []).
Proof.
  intros Ht Hn. unfold dbLookup. rewrite Ht, Hn. simpl.
  destruct (negb (Class q =? ClassINET)); [reflexivity|].
  destruct (String.eqb (redisGet (DomainName q)) ""); reflexivity.
Qed.

Lemma dbLookup_ip6_AAAA (q : DNSResourceRecord) :
  Class q = ClassINET -> Type_ q = TypeAAAA ->
  Contains (DomainName q) "ip4" = false ->
  Contains (DomainName q) "ip6" = true ->
  redisGet (DomainName q) <> "" ->
  lookup q = Ok ([recordAAAA q], [], []).
Proof.
  intros Hc Ht Hn4 Hn6 Hv. unfold dbLookup.
  rewrite Hc, Ht, Hn4, Hn6. simpl.
  apply String.eqb_neq in Hv. rewrite Hv. reflexivity.
Qed.

Lemma dbLookup_ip6_A (q : DNSResourceRecord) :
  Class q = ClassINET -> Type_ q = TypeA ->
  Contains (DomainName q) "ip4" = false ->
  Contains (DomainName q) "ip6" = true ->
  redisGet (DomainName q) <> "" ->
  lookup q = Ok ([], [], [recordAAAA q]).
Proof.
  intros Hc Ht Hn4 Hn6 Hv. unfold dbLookup.
  rewrite Hc, Ht, Hn4, Hn6. simpl.
  apply String.eqb_neq in Hv. rewrite Hv. reflexivity.
Qed.

(** The one way the resolver panics: slicing the [nil] that [net.ParseIP]
    returned for the stored string of an "ip4" name asked with type A. *)
Lemma dbLookup_unparseable_ip4_A (q : DNSResourceRecord) :
  Class q = ClassINET -> Type_ q = TypeA ->
  Contains (DomainName q) "ip4" = true ->
  redisGet (DomainName q) <> "" ->
  ParseIP (redisGet (DomainName q)) = [] ->
  lookup q = Panic.
Proof.
  intros Hc Ht Hn Hv Hp. unfold dbLookup.
  rewrite Hc, Ht, Hn, Hp. simpl.
  apply String.eqb_neq in Hv. rewrite Hv. reflexivity.
Qed.

Lemma dbLookup_authority (q : DNSResourceRecord) (r : Lookup) :
  lookup q = Ok r ->
  snd (fst r) = [] /\
  (List.length (fst (fst r)) <= 1)%nat /\ (List.length (snd r) <= 1)%nat.
Proof.
  unfold dbLookup.
  repeat match goal with
         | |- context [if ?c then _ else _] => destruct c
         end;
    try (destruct (slice _ 12 16); simpl);
    intros H; inversion H; subst; simpl; repeat split; lia.
Qed.

(** The resolver panics on one kind of query only. *)
Lemma dbLookup_Panic_inv (q : DNSResourceRecord) :
  lookup q = Panic ->
  Class q = ClassINET /\ Type_ q = TypeA /\
  Contains (DomainName q) "ip4" = true /\
  redisGet (DomainName q) <> "" /\
  llen (ParseIP (redisGet (DomainName q))) < 16.
Proof.
  unfold dbLookup, slice.
  destruct (Class q =? ClassINET) eqn:Ec; simpl; [|discriminate].
  destruct (Type_ q =? TypeA) eqn:Et; simpl.
  - destruct (String.eqb (redisGet (DomainName q)) "") eqn:Ev; [discriminate|].
    destruct (Contains (DomainName q) "ip4") eqn:En.
    + destruct (16 <=? llen _) eqn:El; simpl; [discriminate|].
      intros _. apply Z.eqb_eq in Ec, Et. apply String.eqb_neq in Ev.
      apply Z.leb_gt in El. repeat split; assumption.
    + destruct (Contains (DomainName q) "ip6");
        [destruct (Type_ q =? TypeAAAA)|]; discriminate.
  - destruct (Type_ q =? TypeAAAA); [|discriminate].
    destruct (String.eqb (redisGet (DomainName q)) ""); [discriminate|].
    destruct (Contains (DomainName q) "ip4"); [discriminate|].
    destruct (Contains (DomainName q) "ip6"); discriminate.
Qed.

(** C4, as the code has it.  For a query of class IN whose name contains
    "ip4" and maps to a parseable address: asked with type A, the resolver
    returns exactly one answer and nothing else, of type A and class IN,
    with resource-data length 4 and as its 4 bytes of data bytes 12 to 15
    of the 16-byte form of the address (the four octets of an IPv4
    address), and with the configured expiry reduced modulo 2^32 as TTL,
    which is the expiry itself when that is below 2^32; asked with type
    AAAA, it returns three empty lists. *)
Theorem dbLookup_ip4 (q : DNSResourceRecord) :
  Class q = ClassINET ->
  Contains (DomainName q) "ip4" = true ->
  redisGet (DomainName q) <> "" ->
  ParseIP (redisGet (DomainName q)) <> [] ->
  (Type_ q = TypeA ->
     lookup q = Ok ([recordA q], [], []) /\
     Type_ (recordA q) = TypeA /\ Class (recordA q) = ClassINET /\
     ResourceDataLength (recordA q) = 4 /\
     List.length (ResourceData (recordA q)) = 4%nat /\
     TimeToLive (recordA q) = ExpiryTimeInSeconds mod 2 ^ 32 /\
     (0 <= ExpiryTimeInSeconds < 2 ^ 32 ->
        TimeToLive (recordA q) = ExpiryTimeInSeconds)) /\
  (Type_ q = TypeAAAA -> lookup q = Ok ([], [], [])).
Proof.
  intros Hc Hn Hv Hp. split.
  - intros Ht. split; [apply dbLookup_ip4_A; assumption|].
    repeat split; try reflexivity.
    + apply length_ipv4. exact Hp.
    + intros Hr. apply uint32_small. exact Hr.
  - intros Ht. apply dbLookup_ip4_AAAA; assumption.
Qed.

(** C5, as the code has it.  For a query of class IN whose name contains
    "ip6" and not "ip4" and maps to a parseable address, the record built
    is of type AAAA and class IN, carries the 16 bytes of the address and
    the configured expiry reduced modulo 2^32 as TTL (the expiry itself
    when that is below 2^32); asked with type AAAA the resolver returns it
    as the one answer, asked with type A it returns no answer, no
    authority and that record as the one additional. *)
Theorem dbLookup_ip6 (q : DNSResourceRecord) :
  Class q = ClassINET ->
  Contains (DomainName q) "ip4" = false ->
  Contains (DomainName q) "ip6" = true ->
  redisGet (DomainName q) <> "" ->
  ParseIP (redisGet (DomainName q)) <> [] ->
  (Type_ (recordAAAA q) = TypeAAAA /\ Class (recordAAAA q) = ClassINET /\
   ResourceDataLength (recordAAAA q) = 16 /\
   List.length (ResourceData (recordAAAA q)) = 16%nat /\
   TimeToLive (recordAAAA q) = ExpiryTimeInSeconds mod 2 ^ 32 /\
   (0 <= ExpiryTimeInSeconds < 2 ^ 32 ->
      TimeToLive (recordAAAA q) = ExpiryTimeInSeconds)) /\
  (Type_ q = TypeAAAA -> lookup q = Ok ([recordAAAA q], [], [])) /\
  (Type_ q = TypeA -> lookup q = Ok ([], [], [recordAAAA q])).
Proof.
  intros Hc Hn4 Hn6 Hv Hp. split; [|split].
  - repeat split; try reflexivity.
    + apply parsed_len. exact Hp.
    + intros Hr. apply uint32_small. exact Hr.
  - intros Ht. apply dbLookup_ip6_AAAA; assumption.
  - intros Ht. apply dbLookup_ip6_A; assumption.
Qed.

(** C10. For a name that contains both "ip4" and "ip6" the "ip4" branch
    is the one taken: a type AAAA query yields no record in any section,
    and a type A query (class IN, parseable stored address) yields the
    single answer of type A with its 4 bytes of data and nothing else. *)
Theorem dbLookup_ip4_before_ip6 (q : DNSResourceRecord) :
  Contains (DomainName q) "ip4" = true ->
  Contains (DomainName q) "ip6" = true ->
  (Type_ q = TypeAAAA -> lookup q = Ok ([], [], [])) /\
  (Type_ q = TypeA ->
   Class q = ClassINET ->
   redisGet (DomainName q) <> "" ->
   ParseIP (redisGet (DomainName q)) <> [] ->
     lookup q = Ok ([recordA q], [], []) /\
     Type_ (recordA q) = TypeA /\
     ResourceDataLength (recordA q) = 4 /\
     List.length (ResourceData (recordA q)) = 4%nat).
Proof.
  intros Hn4 _. split.
  - intros Ht. apply dbLookup_ip4_AAAA; assumption.
  - intros Ht Hc Hv Hp. split; [apply dbLookup_ip4_A; assumption|].
    repeat split. apply length_ipv4. exact Hp.
Qed.

End ResolverProperties.

Lemma dbLookup_ip4_witness :
  dbLookup exampleStore exampleParseIP 1800 (question "foo.ip4" TypeA)
  = Ok ([ {| DomainName := "foo.ip4"; Type_ := TypeA; Class := ClassINET;
             TimeToLive := 1800; ResourceDataLength := 4;
             ResourceData := [x7f; x00; x00; x01] |} ], [], [])
  /\ dbLookup exampleStore exampleParseIP 1800 (question "foo.ip4" TypeAAAA)
     = Ok ([], [], []).
Proof.
  split.
  - refine (proj1 (proj1 (dbLookup_ip4 exampleStore exampleParseIP 1800
           exampleParseIP_len (question "foo.ip4" TypeA) eq_refl eq_refl _ _)
           eq_refl));
      vm_compute; discriminate.
  - refine (proj2 (dbLookup_ip4 exampleStore exampleParseIP 1800
           exampleParseIP_len (question "foo.ip4" TypeAAAA) eq_refl eq_refl _ _)
           eq_refl);
      vm_compute; discriminate.
Defined.

(** C4 as stated fails in two places.  For an expiry of 2^32 seconds, which
    the [uint] flag accepts where [uint] has 64 bits, the TTL is
    [uint32(ExpiryTimeInSeconds)], that is 0.  And for an "ip4" name stored
    with the IPv6 address ::1, a parseable address, the 4 bytes of data are
    not the bytes of that address but the last four of its 16. *)
Lemma dbLookup_ip4_ttl_and_data_differ :
  (exists r,
     dbLookup exampleStore exampleParseIP 4294967296 (question "foo.ip4" TypeA)
     = Ok ([r], [], []) /\
     TimeToLive r = 0 /\ TimeToLive r <> 4294967296) /\
  (exists r,
     dbLookup exampleStore exampleParseIP 1800 (question "six.ip4" TypeA)
     = Ok ([r], [], []) /\
     ResourceData r = [x00; x00; x00; x01] /\
     ResourceData r <> exampleParseIP (exampleStore "six.ip4")).
Proof.
  split; eexists; (split; [reflexivity|]); (split; [reflexivity | discriminate]).
Qed.

Lemma dbLookup_ip6_witness :
  dbLookup exampleStore exampleParseIP 1800 (question "bar.ip6" TypeAAAA)
  = Ok ([ {| DomainName := "bar.ip6"; Type_ := TypeAAAA; Class := ClassINET;
             TimeToLive := 1800; ResourceDataLength := 16;
             ResourceData := exampleParseIP "::1" |} ], [], [])
  /\ dbLookup exampleStore exampleParseIP 1800 (question "bar.ip6" TypeA)
     = Ok ([], [],
           [ {| DomainName := "bar.ip6"; Type_ := TypeAAAA; Class := ClassINET;
                TimeToLive := 1800; ResourceDataLength := 16;
                ResourceData := exampleParseIP "::1" |} ]).
Proof.
  split.
  - refine (proj1 (proj2 (dbLookup_ip6 exampleStore exampleParseIP 1800
           exampleParseIP_len (question "bar.ip6" TypeAAAA)
           eq_refl eq_refl eq_refl _ _)) eq_refl);
      vm_compute; discriminate.
  - refine (proj2 (proj2 (dbLookup_ip6 exampleStore exampleParseIP 1800
           exampleParseIP_len (question "bar.ip6" TypeA)
           eq_refl eq_refl eq_refl _ _)) eq_refl);
      vm_compute; discriminate.
Defined.

(** C5 as stated fails on the TTL of the additional record for an expiry
    of 2^32 seconds, which the [uint] flag accepts where [uint] has 64
    bits: [uint32(ExpiryTimeInSeconds)] is then 0. *)
Lemma dbLookup_ip6_expiry_wraps :
  exists r,
    dbLookup exampleStore exampleParseIP 4294967296 (question "bar.ip6" TypeA)
    = Ok ([], [], [r]) /\
    TimeToLive r = 0 /\ TimeToLive r <> 4294967296.
Proof.
  eexists. split; [reflexivity|]. split; [reflexivity | discriminate].
Qed.

Lemma dbLookup_ip4_before_ip6_witness :
  dbLookup exampleStore exampleParseIP 1800 (question "both.ip4.ip6" TypeAAAA)
  = Ok ([], [], [])
  /\ dbLookup exampleStore exampleParseIP 1800 (question "both.ip4.ip6" TypeA)
     = Ok ([ {| DomainName := "both.ip4.ip6"; Type_ := TypeA; Class := ClassINET;
                TimeToLive := 1800; ResourceDataLength := 4;
                ResourceData := [x7f; x00; x00; x01] |} ], [], []).
Proof.
  split.
  - exact (proj1 (dbLookup_ip4_before_ip6 exampleStore exampleParseIP 1800
           exampleParseIP_len (question "both.ip4.ip6" TypeAAAA)
           eq_refl eq_refl) eq_refl).
  - refine (proj1 (proj2 (dbLookup_ip4_before_ip6 exampleStore exampleParseIP 1800
           exampleParseIP_len (question "both.ip4.ip6" TypeA)
           eq_refl eq_refl) eq_refl eq_refl _ _));
      vm_compute; discriminate.
Defined.

(** C1. The code does not treat an unparseable stored address as a miss.
    With "bad.ip4" and "bad.ip6" stored as "localhost", which is no IP
    address literal: the type A query for "bad.ip4" panics on
    [parsedAddress[12:16]], and the type AAAA query for "bad.ip6" returns an
    answer whose data is empty while its data length says 16. *)
Theorem dbLookup_unparseable :
  dbLookup exampleStore exampleParseIP 1800 (question "bad.ip4" TypeA) = Panic
  /\ dbLookup exampleStore exampleParseIP 1800 (question "bad.ip6" TypeAAAA)
     = Ok ([ {| DomainName := "bad.ip6"; Type_ := TypeAAAA; Class := ClassINET;
                TimeToLive := 1800; ResourceDataLength := 16;
                ResourceData := [] |} ], [], []).
Proof. split; reflexivity. Qed.

(** ** The request handler *)

Lemma length_update (idx : nat) (f : DNSResourceRecord -> DNSResourceRecord)
    (recs : list DNSResourceRecord) :
  List.length (update idx f recs) = List.length recs.
Proof.
  revert idx. induction recs as [|r recs IH]; intros [|idx]; simpl;
    try reflexivity. now rewrite IH.
Qed.

Lemma update_app (done : list DNSResourceRecord) (r : DNSResourceRecord)
    (rest : list DNSResourceRecord) (f : DNSResourceRecord -> DNSResourceRecord) :
  update (List.length done) f (done ++ r :: rest) = done ++ f r :: rest.
Proof. induction done as [|d done IH]; simpl; [reflexivity | now rewrite IH]. Qed.

Lemma readQuestion_length (idx : nat) (recs recs' : list DNSResourceRecord)
    (buf buf' : list byte) :
  readQuestion idx recs buf = Ok (recs', buf') ->
  List.length recs' = List.length recs.
Proof.
  unfold readQuestion, Buffer.Next.
  destruct (readDomainName buf) as [[name err] buf1].
  destruct (BigEndian.Uint16 (firstn _ buf1)) as [ty|]; simpl; [|discriminate].
  destruct (BigEndian.Uint16 _) as [cl|]; simpl; [|discriminate].
  intros H. inversion H; subst. now rewrite !length_update.
Qed.

Lemma readQuestions_length (idxs : list nat) :
  forall (recs recs' : list DNSResourceRecord) (buf buf' : list byte),
    readQuestions idxs recs buf = Ok (recs', buf') ->
    List.length recs' = List.length recs.
Proof.
  induction idxs as [|idx idxs IH]; intros recs recs' buf buf' H; simpl in H.
  - inversion H. reflexivity.
  - destruct (readQuestion idx recs buf) as [[recs1 buf1]|] eqn:E; [|discriminate].
    simpl in H. apply IH in H. apply readQuestion_length in E. congruence.
Qed.

Lemma readHeader_in_range (buf : list byte) :
  header_in_range (fst (fst (readHeader buf))).
Proof.
  assert (Hz : header_in_range zeroHeader) by (repeat split; simpl; lia).
  unfold readHeader.
  do 12 (destruct buf as [|? buf]; [exact Hz|]).
  repeat split; simpl; apply be16_range.
Qed.

(** What [decodeRequest] returns: the header as read, and as many questions
    as the header counts. *)
Lemma decodeRequest_inv (req : list byte) (h : DNSHeader)
    (qs : list DNSResourceRecord) :
  decodeRequest req = Ok (h, qs) ->
  h = fst (fst (readHeader req)) /\ header_in_range h /\
  NumQuestions h = llen qs.
Proof.
  unfold decodeRequest.
  pose proof (readHeader_in_range req) as Hr.
  destruct (readHeader req) as [[qh err] buf]. simpl in Hr.
  destruct (readQuestions _ _ buf) as [[recs buf']|] eqn:E; simpl; [|discriminate].
  intros H. inversion H; subst. repeat split; try apply Hr.
  apply readQuestions_length in E. rewrite repeat_length in E.
  unfold llen. rewrite E. destruct Hr as (_ & _ & Hq & _). lia.
Qed.

(** Writing never looks at what is already in the buffer. *)
Lemma fold_left_append {A : Type} (f : list byte -> A -> list byte) (l : list A) :
  (forall buf x, f buf x = buf ++ f [] x) ->
  forall buf, fold_left f l buf = buf ++ flat_map (f []) l.
Proof.
  intros Hf. induction l as [|x l IH]; intros buf; simpl.
  - symmetry. apply app_nil_r.
  - rewrite IH, (Hf buf x), <- app_assoc. reflexivity.
Qed.

Lemma Write_header_bytes (h : DNSHeader) (buf : list byte) :
  Write_header buf h
  = buf ++ [byte_of_Z (Z.shiftr (TransactionID h) 8); byte_of_Z (TransactionID h);
            byte_of_Z (Z.shiftr (Flags h) 8); byte_of_Z (Flags h);
            byte_of_Z (Z.shiftr (NumQuestions h) 8); byte_of_Z (NumQuestions h);
            byte_of_Z (Z.shiftr (NumAnswers h) 8); byte_of_Z (NumAnswers h);
            byte_of_Z (Z.shiftr (NumAuthorities h) 8); byte_of_Z (NumAuthorities h);
            byte_of_Z (Z.shiftr (NumAdditionals h) 8); byte_of_Z (NumAdditionals h)].
Proof.
  unfold Write_header, Write_uint16. rewrite <- !app_assoc. reflexivity.
Qed.

(** The reader of the request header reads back a header as [Write] wrote
    it. *)
Lemma readHeader_Write_header (h : DNSHeader) (rest : list byte) :
  header_in_range h ->
  readHeader (Write_header [] h ++ rest) = (h, None, rest).
Proof.
  intros (Hi & Hf & Hq & Ha & Hn & Hr).
  rewrite Write_header_bytes. simpl.
  rewrite !be16_Write by assumption. destruct h; reflexivity.
Qed.

Lemma writeQuestion_bytes (buf : list byte) (q : DNSResourceRecord) :
  writeQuestion buf q
  = buf ++ fst (writeDomainName [] (DomainName q))
        ++ [byte_of_Z (Z.shiftr (Type_ q) 8); byte_of_Z (Type_ q);
            byte_of_Z (Z.shiftr (Class q) 8); byte_of_Z (Class q)].
Proof.
  unfold writeQuestion. rewrite !writeDomainName_bytes.
  unfold Write_uint16. cbn [fst app]. rewrite <- !app_assoc. reflexivity.
Qed.

Lemma writeRecord_append (buf : list byte) (r : DNSResourceRecord) :
  writeRecord buf r = buf ++ writeRecord [] r.
Proof.
  unfold writeRecord. rewrite !writeDomainName_bytes.
  unfold Write_uint16, Write_uint32, Write_bytes. rewrite <- !app_assoc.
  reflexivity.
Qed.

Lemma writeQuestion_append (buf : list byte) (q : DNSResourceRecord) :
  writeQuestion buf q = buf ++ writeQuestion [] q.
Proof. rewrite (writeQuestion_bytes buf), (writeQuestion_bytes []). reflexivity. Qed.

(** One turn of the question loop on a question as [writeQuestion] wrote
    it. *)
Lemma readQuestion_written (done rest : list DNSResourceRecord)
    (q : DNSResourceRecord) (tail : list byte) :
  record_in_range q -> question_only q ->
  readQuestion (List.length done) (done ++ zeroRecord :: rest)
    (writeQuestion [] q ++ tail)
  = Ok (done ++ q :: rest, tail).
Proof.
  intros (Hname & Hty & Hcl & _) (Httl & Hlen & Hdata).
  unfold readQuestion.
  rewrite writeQuestion_bytes. cbn [app]. rewrite <- app_assoc.
  rewrite readDomainName_writeDomainName by exact Hname.
  unfold Buffer.Next, BigEndian.Uint16.
  change (Z.to_nat 2) with 2%nat. cbn [firstn skipn app bind].
  rewrite !be16_Write by assumption.
  rewrite !update_app.
  destruct q as [name ty cl ttl rdlen data]. simpl in *. subst.
  reflexivity.
Qed.

Lemma readQuestions_written (qs : list DNSResourceRecord) (tail : list byte) :
  Forall (fun q => record_in_range q /\ question_only q) qs ->
  forall done,
    readQuestions (seq (List.length done) (List.length qs))
      (done ++ repeat zeroRecord (List.length qs))
      (flat_map (writeQuestion []) qs ++ tail)
    = Ok (done ++ qs, tail).
Proof.
  induction 1 as [|q qs [Hr Hq] Hqs IH]; intros done.
  - simpl. rewrite app_nil_r. reflexivity.
  - cbn [List.length seq repeat flat_map readQuestions].
    rewrite <- app_assoc, readQuestion_written by assumption.
    cbn [bind].
    specialize (IH (done ++ [q])).
    rewrite length_app, Nat.add_1_r, <- !app_assoc in IH. exact IH.
Qed.

Lemma decodeRequest_written (h : DNSHeader) (qs : list DNSResourceRecord)
    (tail : list byte) :
  header_in_range h ->
  NumQuestions h = llen qs ->
  Forall (fun q => record_in_range q /\ question_only q) qs ->
  decodeRequest (Write_header [] h ++ flat_map (writeQuestion []) qs ++ tail)
  = Ok (h, qs).
Proof.
  intros Hh Hn Hqs. unfold decodeRequest.
  rewrite readHeader_Write_header by exact Hh.
  rewrite Hn. unfold llen. rewrite Nat2Z.id.
  pose proof (readQuestions_written qs tail Hqs []) as H.
  simpl in H. rewrite H. reflexivity.
Qed.

Lemma writeResponse_header (h : DNSHeader)
    (qs ans auth add : list DNSResourceRecord) :
  exists body, writeResponse h qs ans auth add = Write_header [] h ++ body.
Proof.
  unfold writeResponse.
  rewrite (fold_left_append writeQuestion qs writeQuestion_append).
  rewrite !(fold_left_append writeRecord _ writeRecord_append).
  rewrite <- !app_assoc. eexists. reflexivity.
Qed.

Lemma byte_of_be16_high (b0 b1 : byte) :
  byte_of_Z (Z.shiftr (BigEndian.be16 b0 b1) 8) = b0.
Proof.
  apply Z_of_byte_inj. rewrite Z_of_byte_of_Z, be16_arith.
  pose proof (Z_of_byte_range b0). pose proof (Z_of_byte_range b1).
  rewrite Z.shiftr_div_pow2 by lia. change (2 ^ 8) with 256.
  rewrite Z.div_add_l, (Z.div_small (Z_of_byte b1)), Z.add_0_r by lia.
  apply Z.mod_small. lia.
Qed.

Lemma byte_of_be16_low (b0 b1 : byte) :
  byte_of_Z (BigEndian.be16 b0 b1) = b1.
Proof.
  apply Z_of_byte_inj. rewrite Z_of_byte_of_Z, be16_arith.
  pose proof (Z_of_byte_range b1).
  rewrite Z.add_comm, Z.mod_add by lia. apply Z.mod_small. lia.
Qed.

Lemma receiveBuffer_length (datagram : list byte) :
  List.length (receiveBuffer datagram) = 512%nat.
Proof.
  unfold receiveBuffer. change (Z.to_nat UDPMaxMessageSizeBytes) with 512%nat.
  rewrite length_app, length_firstn, repeat_length. lia.
Qed.

Section HandlerProperties.

Variable redisGet : string -> string.
Variable ParseIP : string -> list byte.
Variable ExpiryTimeInSeconds : Z.

Local Abbreviation lookup := (dbLookup redisGet ParseIP ExpiryTimeInSeconds).
Local Abbreviation lookups := (lookupAll redisGet ParseIP ExpiryTimeInSeconds).
Local Abbreviation handle := (handleDNSClient redisGet ParseIP ExpiryTimeInSeconds).

(** The lookups add nothing to the authorities and at most one record per
    question to the answers and to the additionals. *)
Lemma lookupAll_inv (qs : list DNSResourceRecord) :
  forall ans0 auth0 add0 ans auth add,
    lookups qs (ans0, auth0, add0) = Ok (ans, auth, add) ->
    auth = auth0 /\
    (List.length ans <= List.length ans0 + List.length qs)%nat /\
    (List.length add <= List.length add0 + List.length qs)%nat.
Proof.
  induction qs as [|q qs IH]; intros ans0 auth0 add0 ans auth add H; simpl in H.
  - inversion H; subst. repeat split; lia.
  - destruct (lookup q) as [[[a u] d]|] eqn:E; simpl in H; [|discriminate].
    apply dbLookup_authority in E. simpl in E. destruct E as (Hu & Ha & Hd).
    apply IH in H. destruct H as (Hauth & Hans & Hadd). subst u.
    rewrite app_nil_r in Hauth. rewrite length_app in Hans, Hadd.
    simpl. repeat split; [assumption | lia | lia].
Qed.

Lemma handleDNSClient_inv (req resp : list byte) :
  handle req = Ok resp ->
  exists queryHeader qs ans add,
    decodeRequest req = Ok (queryHeader, qs) /\
    lookups qs ([], [], []) = Ok (ans, [], add) /\
    resp = encodeResponse queryHeader qs ans [] add /\
    header_in_range (makeResponseHeader queryHeader ans [] add) /\
    (llen ans < 2 ^ 16 /\ llen add < 2 ^ 16).
Proof.
  unfold handleDNSClient.
  destruct (decodeRequest req) as [[qh qs]|] eqn:Ed; simpl; [|discriminate].
  destruct (lookups qs ([], [], [])) as [[[ans auth] add]|] eqn:El; simpl;
    [|discriminate].
  intros H. inversion H; subst. clear H.
  apply decodeRequest_inv in Ed. destruct Ed as (Hh & Hr & Hq).
  pose proof (lookupAll_inv _ _ _ _ _ _ _ El) as (Hauth & Hans & Hadd).
  subst auth. simpl in Hans, Hadd.
  assert (Hqs : llen qs < 2 ^ 16) by (destruct Hr as (_ & _ & ? & _); lia).
  assert (Ha : llen ans < 2 ^ 16) by (unfold llen in *; lia).
  assert (Hd : llen add < 2 ^ 16) by (unfold llen in *; lia).
  exists (fst (fst (readHeader req))), qs, ans, add.
  rewrite <- Hh. repeat split; try assumption; simpl;
    try (destruct Hr as (? & ? & ? & _); lia);
    try (unfold uint16; apply Z.mod_pos_bound; lia).
  all: try (change FlagResponse with 32768; lia).
Qed.

Lemma lookupAll_returns (qs : list DNSResourceRecord) :
  (forall q, In q qs -> lookup q <> Panic) ->
  forall acc, exists r, lookups qs acc = Ok r.
Proof.
  induction qs as [|q qs IH]; intros Hq [[ans auth] add]; simpl.
  - eexists. reflexivity.
  - destruct (lookup q) as [[[a u] d]|] eqn:E.
    + simpl. apply IH. intros q' Hin. apply Hq. right. exact Hin.
    + exfalso. apply (Hq q); [left; reflexivity | exact E].
Qed.

(** A well-formed query gets a response: header and questions as a client
    writes them, whatever follows them in the receive buffer, and no
    question for which the store holds a string that is no address. *)
Lemma handleDNSClient_responds (h : DNSHeader) (qs : list DNSResourceRecord)
    (tail : list byte) :
  header_in_range h ->
  NumQuestions h = llen qs ->
  Forall (fun q => record_in_range q /\ question_only q) qs ->
  (forall q, In q qs ->
     redisGet (DomainName q) = "" \/
     16 <= llen (ParseIP (redisGet (DomainName q)))) ->
  exists resp,
    handle (Write_header [] h ++ flat_map (writeQuestion []) qs ++ tail) = Ok resp.
Proof.
  intros Hh Hn Hqs Hstore. unfold handleDNSClient.
  rewrite decodeRequest_written by assumption. cbn [bind].
  destruct (lookupAll_returns qs) with (acc := ([], [], []) : Lookup)
    as [[[ans auth] add] Hl].
  - intros q Hin HP.
    apply (dbLookup_Panic_inv redisGet ParseIP ExpiryTimeInSeconds) in HP.
    destruct HP as (_ & _ & _ & Hv & Hp).
    destruct (Hstore q Hin) as [H0|H16]; [contradiction | lia].
  - rewrite Hl. cbn [bind]. eexists. reflexivity.
Qed.

(** C3. Whenever the handler sends a response, its header, read back
    from the response bytes, carries as its four counts the lengths of the
    question, answer, authority and additional lists written after it,
    whatever counts the request header carried. *)
Theorem response_counts (req resp : list byte) :
  handle req = Ok resp ->
  exists queryHeader qs ans auth add h,
    decodeRequest req = Ok (queryHeader, qs) /\
    lookups qs ([], [], []) = Ok (ans, auth, add) /\
    resp = writeResponse h qs ans auth add /\
    readHeader resp = (h, None, skipn 12 resp) /\
    NumQuestions h = llen qs /\
    NumAnswers h = llen ans /\
    NumAuthorities h = llen auth /\
    NumAdditionals h = llen add.
Proof.
  intros H. apply handleDNSClient_inv in H.
  destruct H as (qh & qs & ans & add & Hd & Hl & Hresp & Hr & Ha & Hadd).
  exists qh, qs, ans, [], add, (makeResponseHeader qh ans [] add).
  apply decodeRequest_inv in Hd as Hd'. destruct Hd' as (_ & _ & Hq).
  repeat split; try assumption.
  - subst resp. unfold encodeResponse.
    destruct (writeResponse_header (makeResponseHeader qh ans [] add) qs ans [] add)
      as [body Hb].
    rewrite Hb, readHeader_Write_header by exact Hr.
    rewrite Write_header_bytes. reflexivity.
  - simpl. apply uint16_small. unfold llen in *. lia.
  - simpl. apply uint16_small. unfold llen in *. lia.
Qed.

(** C7. Whenever the handler sends a response, the header read back
    from it has as flags the response bit, bit 15, and no other bit, and
    as transaction ID the one read from the request; the first two bytes
    of the response are those of a request of at least header size, as is
    every receive buffer [main] hands over. *)
Theorem response_flags_and_id (req resp : list byte) :
  handle req = Ok resp ->
  exists h rest,
    readHeader resp = (h, None, rest) /\
    Flags h = FlagResponse /\
    (forall i, Z.testbit (Flags h) i = (i =? 15)) /\
    TransactionID h = TransactionID (fst (fst (readHeader req))) /\
    ((12 <= List.length req)%nat -> firstn 2 resp = firstn 2 req) /\
    (forall datagram, req = receiveBuffer datagram ->
       firstn 2 resp = firstn 2 req).
Proof.
  intros H. apply handleDNSClient_inv in H.
  destruct H as (qh & qs & ans & add & Hd & Hl & Hresp & Hr & _).
  apply decodeRequest_inv in Hd. destruct Hd as (Hh & _ & _).
  destruct (writeResponse_header (makeResponseHeader qh ans [] add) qs ans [] add)
    as [body Hb].
  unfold encodeResponse in Hresp. rewrite Hb in Hresp.
  exists (makeResponseHeader qh ans [] add), body.
  split; [subst resp; apply readHeader_Write_header; exact Hr|].
  assert (Hecho : (12 <= List.length req)%nat -> firstn 2 resp = firstn 2 req).
  { intros Hlen. subst resp. rewrite Write_header_bytes. simpl.
    rewrite Hh. unfold readHeader.
    do 12 (destruct req as [|? req]; [simpl in Hlen; lia|]).
    simpl. rewrite byte_of_be16_high, byte_of_be16_low. reflexivity. }
  split; [reflexivity|]. split; [|split; [|split]].
  - intros i. simpl. change FlagResponse with (2 ^ 15).
    rewrite Z.pow2_bits_eqb by lia. apply Z.eqb_sym.
  - simpl. rewrite Hh. reflexivity.
  - exact Hecho.
  - intros datagram Hreq. apply Hecho.
    rewrite Hreq, receiveBuffer_length. lia.
Qed.

(** C9. The resolver returns an empty authority list for every query on
    which it returns, and it returns on every query but the one it panics
    on (class IN, type A, an "ip4" name, a stored string [net.ParseIP]
    does not give 16 bytes for); so whenever the handler sends a response,
    the authority list written is empty and the authority count read back
    from the response is zero. *)
Theorem authorities_empty :
  (forall q,
     match lookup q with
     | Ok (ans, auth, add) => auth = []
     | Panic =>
         Class q = ClassINET /\ Type_ q = TypeA /\
         Contains (DomainName q) "ip4" = true /\
         redisGet (DomainName q) <> "" /\
         llen (ParseIP (redisGet (DomainName q))) < 16
     end) /\
  (forall req resp,
     handle req = Ok resp ->
     exists h qs ans add,
       resp = writeResponse h qs ans [] add /\
       NumAuthorities h = 0 /\
       NumAuthorities (fst (fst (readHeader resp))) = 0).
Proof.
  split.
  - intros q. destruct (lookup q) as [[[ans auth] add]|] eqn:E.
    + apply dbLookup_authority in E. exact (proj1 E).
    + apply dbLookup_Panic_inv in E. exact E.
  - intros req resp H. apply handleDNSClient_inv in H.
    destruct H as (qh & qs & ans & add & Hd & Hl & Hresp & Hr & _).
    exists (makeResponseHeader qh ans [] add), qs, ans, add.
    split; [exact Hresp|]. split; [reflexivity|].
    destruct (writeResponse_header (makeResponseHeader qh ans [] add) qs ans [] add)
      as [body Hb].
    subst resp. unfold encodeResponse.
    rewrite Hb, readHeader_Write_header by exact Hr. reflexivity.
Qed.

End HandlerProperties.

(** ** Messages: decoding what was encoded *)

(** C2, as the code has it.  For a well-formed message whose counts match
    its lists, decoding the encoded message gives back the transaction ID,
    the four counts and the questions; the flags come back as the response
    bit, and the answer, authority and additional records, which the decoder
    never reads, come back as empty lists.  So the message itself comes back
    when its flags are the response bit and it has questions only. *)
Theorem decode_encode (m : Message) :
  well_formed m -> counts_match m ->
  decode (encode m) = Ok (as_decoded m) /\
  (Flags (header m) = FlagResponse ->
   answers m = [] -> authorities m = [] -> additionals m = [] ->
   decode (encode m) = Ok m).
Proof.
  intros (Hh & Hqs & Hans & Hauth & Hadd) (Cq & Ca & Cn & Cr).
  destruct Hh as (Hi & Hf & Hq & Ha & Hn & Hr).
  assert (Hdec : decode (encode m) = Ok (as_decoded m)).
  { unfold decode, encode, encodeResponse, writeResponse.
    rewrite (fold_left_append writeQuestion _ writeQuestion_append).
    rewrite !(fold_left_append writeRecord _ writeRecord_append).
    rewrite <- !app_assoc.
    rewrite decodeRequest_written; [| |exact Cq|exact Hqs].
    - cbn [bind]. unfold as_decoded, makeResponseHeader.
      rewrite <- Ca, <- Cn, <- Cr, !uint16_small by assumption. reflexivity.
    - unfold makeResponseHeader, header_in_range. cbn.
      rewrite <- Ca, <- Cn, <- Cr, !uint16_small by assumption.
      change FlagResponse with 32768. repeat split; lia. }
  split; [exact Hdec|].
  intros Ef Ea En Er. rewrite Hdec. f_equal.
  destruct m as [h qs ans auth add]. simpl in *. subst.
  destruct h; simpl in *. subst. reflexivity.
Qed.

Lemma decode_encode_witness :
  decode (encode exampleQuestionOnly) = Ok exampleQuestionOnly /\
  decode (encode exampleResponse) = Ok (as_decoded exampleResponse).
Proof.
  assert (Hq : Forall (fun q => record_in_range q /\ question_only q)
                 [question "foo.ip4" TypeA]).
  { repeat constructor; unfold wire_label; vm_compute; discriminate. }
  split.
  - refine (proj2 (decode_encode exampleQuestionOnly _ _)
              eq_refl eq_refl eq_refl eq_refl).
    + split; [repeat split; vm_compute; discriminate|].
      split; [exact Hq|]. repeat split; constructor.
    + repeat split.
  - refine (proj1 (decode_encode exampleResponse _ _)).
    + split; [repeat split; vm_compute; discriminate|].
      split; [exact Hq|].
      split; [|split; constructor].
      repeat constructor; unfold wire_label; vm_compute; discriminate.
    + repeat split.
Defined.

(** C2 as stated fails on a message that has an answer: the decoder stops
    after the questions, so the answer list comes back empty. *)
Lemma decode_encode_drops_answers :
  well_formed exampleResponse /\ counts_match exampleResponse /\
  decode (encode exampleResponse) <> Ok exampleResponse.
Proof.
  split; [|split].
  - split; [repeat split; vm_compute; discriminate|].
    split; [|split; [|split; constructor]];
      repeat constructor; unfold wire_label; vm_compute; discriminate.
  - repeat split.
  - intros H. vm_compute in H. discriminate H.
Qed.

(** ** The server at work *)

Example Split_examples :
  Split "www.go" = ["www"; "go"] /\ Split "a." = ["a"; ""] /\
  Split ".a" = [""; "a"] /\ Split "a..b" = ["a"; ""; "b"] /\ Split "" = [""].
Proof. repeat split. Qed.

Example Contains_examples :
  Contains "foo.ip4" "ip4" = true /\ Contains "foo.ip4" "ip6" = false /\
  Contains "zip4u.example" "ip4" = true /\ Contains "ip" "ip4" = false /\
  Contains "" "ip4" = false.
Proof. repeat split. Qed.

Example readDomainName_www :
  readDomainName [x03; x77; x77; x77; x02; x67; x6f; x00; x00; x01]
  = ("www.go", None, [x00; x01]).
Proof. reflexivity. Qed.

Example readDomainName_short :
  readDomainName [x03; x77; x77] = ("ww", Some EOF, []).
Proof. reflexivity. Qed.

Example writeDomainName_www :
  writeDomainName [] "www.go" = ([x03; x77; x77; x77; x02; x67; x6f; x00], None).
Proof. reflexivity. Qed.

(** The empty name is written as two zero octets. *)
Example writeDomainName_root : writeDomainName [] "" = ([x00; x00], None).
Proof. reflexivity. Qed.

(** The answer to [exampleQuery]: the question echoed, one A record. *)
Example serve_exampleQuery :
  serve exampleStore exampleParseIP 1800 exampleQuery
  = Ok [x12; x34; x80; x00; x00; x01; x00; x01; x00; x00; x00; x00;
        x03; x66; x6f; x6f; x03; x69; x70; x34; x00; x00; x01; x00; x01;
        x03; x66; x6f; x6f; x03; x69; x70; x34; x00; x00; x01; x00; x01;
        x00; x00; x07; x08; x00; x04; x7f; x00; x00; x01].
Proof. vm_compute. reflexivity. Qed.

Example serve_exampleQuery_encode :
  serve exampleStore exampleParseIP 1800 exampleQuery = Ok (encode exampleResponse).
Proof. vm_compute. reflexivity. Qed.

(** A request that ends with its header but counts one question: the name
    fails to decode, which is logged, and [Uint16] then panics on the empty
    slice [Next(2)] returns. *)
Example handleDNSClient_short_question :
  handleDNSClient exampleStore exampleParseIP 1800
    [x12; x34; x01; x00; x00; x01; x00; x00; x00; x00; x00; x00]
  = Panic.
Proof. reflexivity. Qed.

(** The same in the receive buffer of 512 bytes once the header counts more
    questions than the buffer can hold. *)
Example serve_too_many_questions :
  serve exampleStore exampleParseIP 1800
    [x12; x34; x01; x00; xff; xff; x00; x00; x00; x00; x00; x00]
  = Panic.
Proof. vm_compute. reflexivity. Qed.

Lemma response_counts_witness :
  exists resp,
    serve exampleStore exampleParseIP 1800 exampleQuery2 = Ok resp /\
    exists queryHeader qs ans auth add h,
      decodeRequest (receiveBuffer exampleQuery2) = Ok (queryHeader, qs) /\
      lookupAll exampleStore exampleParseIP 1800 qs ([], [], [])
      = Ok (ans, auth, add) /\
      resp = writeResponse h qs ans auth add /\
      readHeader resp = (h, None, skipn 12 resp) /\
      NumQuestions h = llen qs /\
      NumAnswers h = llen ans /\
      NumAuthorities h = llen auth /\
      NumAdditionals h = llen add.
Proof.
  eexists. split.
  - vm_compute. reflexivity.
  - apply (response_counts exampleStore exampleParseIP 1800
             (receiveBuffer exampleQuery2)).
    vm_compute. reflexivity.
Defined.

Lemma response_flags_and_id_witness :
  exists resp,
    serve exampleStore exampleParseIP 1800 exampleQuery = Ok resp /\
    exists h rest,
      readHeader resp = (h, None, rest) /\
      Flags h = FlagResponse /\
      (forall i, Z.testbit (Flags h) i = (i =? 15)) /\
      TransactionID h
      = TransactionID (fst (fst (readHeader (receiveBuffer exampleQuery)))) /\
      ((12 <= List.length (receiveBuffer exampleQuery))%nat ->
       firstn 2 resp = firstn 2 (receiveBuffer exampleQuery)) /\
      (forall datagram, receiveBuffer exampleQuery = receiveBuffer datagram ->
         firstn 2 resp = firstn 2 (receiveBuffer exampleQuery)).
Proof.
  eexists. split.
  - vm_compute. reflexivity.
  - apply (response_flags_and_id exampleStore exampleParseIP 1800
             (receiveBuffer exampleQuery)).
    vm_compute. reflexivity.
Defined.

Lemma authorities_empty_witness :
  exists resp,
    serve exampleStore exampleParseIP 1800 exampleQuery = Ok resp /\
    exists h qs ans add,
      resp = writeResponse h qs ans [] add /\
      NumAuthorities h = 0 /\
      NumAuthorities (fst (fst (readHeader resp))) = 0.
Proof.
  eexists. split.
  - vm_compute. reflexivity.
  - apply (proj2 (authorities_empty exampleStore exampleParseIP 1800)
             (receiveBuffer exampleQuery)).
    vm_compute. reflexivity.
Defined.


(** * Further properties of the code *)

(** ** More on the resolver *)

Section ResolverFurther.

Variable redisGet : string -> string.
Variable ParseIP : string -> list byte.
Variable ExpiryTimeInSeconds : Z.

Hypothesis ParseIP_len :
  forall s, ParseIP s = [] \/ List.length (ParseIP s) = 16%nat.

Local Abbreviation lookup := (dbLookup redisGet ParseIP ExpiryTimeInSeconds).

(** X1. The resolver returns three empty lists, without panicking, for a
    query whose class is not IN, whose type is neither A nor AAAA, whose
    name the store has no value for, or whose name contains neither "ip4"
    nor "ip6". *)
Theorem dbLookup_nothing (q : DNSResourceRecord) :
  Class q <> ClassINET \/
  (Type_ q <> TypeA /\ Type_ q <> TypeAAAA) \/
  redisGet (DomainName q) = "" \/
  (Contains (DomainName q) "ip4" = false /\
   Contains (DomainName q) "ip6" = false) ->
  lookup q = Ok ([], [], []).
Proof.
  intros H. unfold dbLookup.
  destruct (Class q =? ClassINET) eqn:Ec; simpl; [|reflexivity].
  destruct (Type_ q =? TypeA) eqn:Ea, (Type_ q =? TypeAAAA) eqn:E6; simpl;
    try reflexivity;
    (destruct (String.eqb (redisGet (DomainName q)) "") eqn:Ev; [reflexivity|]);
    apply Z.eqb_eq in Ec; apply String.eqb_neq in Ev;
    try apply Z.eqb_eq in Ea; try apply Z.eqb_eq in E6;
    (destruct H as [H|[[H1 H2]|[H|[H4 H6]]]];
     [contradiction | contradiction | contradiction |]);
    rewrite H4, H6; reflexivity.
Qed.

(** X2. The resolver panics on exactly one kind of query: class IN, type
    A, a name that contains "ip4" and a non-empty stored string for which
    [net.ParseIP] gives fewer than 16 bytes, as it does for every string
    that is no address. *)
Theorem dbLookup_Panic_iff (q : DNSResourceRecord) :
  lookup q = Panic <->
  (Class q = ClassINET /\ Type_ q = TypeA /\
   Contains (DomainName q) "ip4" = true /\
   redisGet (DomainName q) <> "" /\
   llen (ParseIP (redisGet (DomainName q))) < 16).
Proof.
  split; [apply dbLookup_Panic_inv|].
  intros (Hc & Ht & Hn & Hv & Hp). unfold dbLookup, slice.
  rewrite Hc, Ht, Hn. simpl.
  apply String.eqb_neq in Hv. rewrite Hv.
  apply Z.leb_gt in Hp. rewrite Hp. reflexivity.
Qed.

(** What the resolver returns at most: one record, an answer of the type
    asked or, for a type A query, an additional of type AAAA. *)
Lemma dbLookup_shape_cases (q : DNSResourceRecord) (ans auth add : list DNSResourceRecord) :
  lookup q = Ok (ans, auth, add) ->
  (ans = [] /\ add = []) \/
  (exists r, ans = [r] /\ add = [] /\ Type_ r = Type_ q /\
             DomainName r = DomainName q /\ Class r = ClassINET /\
             Class q = ClassINET /\
             TimeToLive r = uint32 ExpiryTimeInSeconds) \/
  (exists r, ans = [] /\ add = [r] /\ Type_ r = TypeAAAA /\ Type_ q = TypeA /\
             DomainName r = DomainName q /\ Class r = ClassINET /\
             Class q = ClassINET /\
             TimeToLive r = uint32 ExpiryTimeInSeconds).
Proof.
  unfold dbLookup.
  destruct (Class q =? ClassINET) eqn:Ec; simpl;
    [apply Z.eqb_eq in Ec | intros H; inversion H; left; split; reflexivity].
  destruct (Type_ q =? TypeA) eqn:Ea; simpl.
  - apply Z.eqb_eq in Ea.
    destruct (String.eqb (redisGet (DomainName q)) "");
      [intros H; inversion H; left; split; reflexivity|].
    destruct (Contains (DomainName q) "ip4").
    + destruct (slice _ 12 16) as [data|]; simpl; [|discriminate].
      intros H; inversion H; subst. right; left.
      eexists. repeat split; try reflexivity; try assumption.
      simpl. symmetry. exact Ea.
    + destruct (Contains (DomainName q) "ip6");
        [|intros H; inversion H; left; split; reflexivity].
      rewrite Ea. simpl.
      intros H; inversion H; subst. right; right.
      eexists. repeat split; try reflexivity; assumption.
  - destruct (Type_ q =? TypeAAAA) eqn:E6;
      [apply Z.eqb_eq in E6 | intros H; inversion H; left; split; reflexivity].
    destruct (String.eqb (redisGet (DomainName q)) "");
      [intros H; inversion H; left; split; reflexivity|].
    destruct (Contains (DomainName q) "ip4");
      [intros H; inversion H; left; split; reflexivity|].
    destruct (Contains (DomainName q) "ip6");
      [|intros H; inversion H; left; split; reflexivity].
    intros H; inversion H; subst. right; left.
    eexists. repeat split; try reflexivity; try assumption.
    simpl. symmetry. exact E6.
Qed.

(** X3. A query gets at most one record, answers and additionals taken
    together.  An answer has the type that was asked; an additional is a
    type AAAA record given to a type A query.  Either carries the name of
    the query, class IN and the expiry as a 32-bit TTL, and is only given
    to a query of class IN. *)
Theorem dbLookup_shape (q : DNSResourceRecord) (ans auth add : list DNSResourceRecord) :
  lookup q = Ok (ans, auth, add) ->
  (List.length ans + List.length add <= 1)%nat /\
  Forall (fun r => Type_ r = Type_ q) ans /\
  Forall (fun r => Type_ r = TypeAAAA /\ Type_ q = TypeA) add /\
  Forall (fun r => DomainName r = DomainName q /\ Class r = ClassINET /\
                   Class q = ClassINET /\
                   TimeToLive r = uint32 ExpiryTimeInSeconds) (ans ++ add).
Proof.
  intros H. apply dbLookup_shape_cases in H.
  destruct H as [[Ha Hd]|[(r & Ha & Hd & Ht & Hn & Hc & Hq & Httl)
                         |(r & Ha & Hd & Ht & Htq & Hn & Hc & Hq & Httl)]];
    subst ans add; simpl; repeat split; auto.
Qed.

(** X4. When the store has no value for the name or the stored string
    parses, the resolver returns, and the data length of every record it
    gives is the length of its data. *)
Theorem dbLookup_parsed (q : DNSResourceRecord) :
  redisGet (DomainName q) = "" \/ ParseIP (redisGet (DomainName q)) <> [] ->
  exists ans add,
    lookup q = Ok (ans, [], add) /\
    Forall (fun r => ResourceDataLength r = llen (ResourceData r)) (ans ++ add).
Proof.
  intros H. unfold dbLookup.
  destruct (negb (Class q =? ClassINET)); [exists [], []; split; constructor|].
  destruct ((Type_ q =? TypeA) || (Type_ q =? TypeAAAA));
    [|exists [], []; split; constructor].
  destruct (String.eqb (redisGet (DomainName q)) "") eqn:Ev;
    [exists [], []; split; constructor|].
  apply String.eqb_neq in Ev. destruct H as [H|Hp]; [contradiction|].
  pose proof (parsed_len ParseIP ParseIP_len _ Hp) as H16.
  destruct (Contains (DomainName q) "ip4").
  - destruct (Type_ q =? TypeA); [|exists [], []; split; constructor].
    rewrite (slice_parsed ParseIP ParseIP_len) by exact Hp. cbn [bind app].
    eexists _, []. split; [reflexivity|].
    repeat constructor. cbn [ResourceDataLength ResourceData]. unfold llen.
    rewrite (length_ipv4 ParseIP ParseIP_len) by exact Hp. reflexivity.
  - destruct (Contains (DomainName q) "ip6"); [|exists [], []; split; constructor].
    destruct (Type_ q =? TypeAAAA).
    + eexists _, []. split; [reflexivity|].
      repeat constructor. simpl. unfold llen. rewrite H16. reflexivity.
    + eexists [], _. split; [reflexivity|].
      repeat constructor. simpl. unfold llen. rewrite H16. reflexivity.
Qed.

End ResolverFurther.

Lemma dbLookup_nothing_witness :
  dbLookup exampleStore exampleParseIP 1800 (question "absent.ip4" TypeA)
  = Ok ([], [], []).
Proof.
  apply (dbLookup_nothing exampleStore exampleParseIP 1800
           (question "absent.ip4" TypeA)).
  right. right. left. reflexivity.
Defined.

Lemma dbLookup_shape_witness :
  let q := question "bar.ip6" TypeA in
  let r := recordAAAA exampleStore exampleParseIP 1800 q in
  dbLookup exampleStore exampleParseIP 1800 q = Ok ([], [], [r]) /\
  (List.length (@nil DNSResourceRecord) + List.length [r] <= 1)%nat /\
  Forall (fun r => Type_ r = Type_ q) [] /\
  Forall (fun r => Type_ r = TypeAAAA /\ Type_ q = TypeA) [r] /\
  Forall (fun r => DomainName r = DomainName q /\ Class r = ClassINET /\
                   Class q = ClassINET /\
                   TimeToLive r = uint32 1800) ([] ++ [r]).
Proof.
  intros q r. split; [reflexivity|].
  apply (dbLookup_shape exampleStore exampleParseIP 1800 q [] [] [r]).
  reflexivity.
Defined.

Lemma dbLookup_parsed_witness :
  exists ans add,
    dbLookup exampleStore exampleParseIP 1800 (question "six.ip4" TypeA)
    = Ok (ans, [], add) /\
    Forall (fun r => ResourceDataLength r = llen (ResourceData r)) (ans ++ add).
Proof.
  apply (dbLookup_parsed exampleStore exampleParseIP 1800 exampleParseIP_len
           (question "six.ip4" TypeA)).
  right. vm_compute. discriminate.
Defined.


(** ** More on the name codec *)

Lemma len_append (a b : string) : len (a ++ b)%string = len a + len b.
Proof.
  unfold len. induction a as [|c a IH]; simpl String.length.
  - simpl. lia.
  - simpl append. simpl String.length. lia.
Qed.

Lemma encodeLabels_app (a b : list string) :
  encodeLabels (a ++ b) = encodeLabels a ++ encodeLabels b.
Proof. unfold encodeLabels. apply flat_map_app. Qed.

Lemma llen_app {A : Type} (a b : list A) : llen (a ++ b) = llen a + llen b.
Proof. unfold llen. rewrite length_app. lia. Qed.

Lemma llen_encodeLabel (l : string) : llen (encodeLabel l) = len l + 1.
Proof.
  unfold encodeLabel, llen, len. simpl List.length.
  rewrite length_list_byte_of_string. lia.
Qed.

(** One length octet per label: a name of [n] bytes takes [n + 1] bytes
    before the closing octet. *)
Lemma llen_encodeLabels_Split (s : string) :
  llen (encodeLabels (Split s)) = len s + 1.
Proof.
  induction s as [|c s IH].
  - reflexivity.
  - simpl Split. pose proof (Split_not_nil s) as Hn.
    destruct (Ascii.eqb c dot).
    + change (encodeLabels ("" :: Split s))
        with (encodeLabel "" ++ encodeLabels (Split s)).
      rewrite llen_app, IH, llen_encodeLabel. unfold len. simpl String.length. lia.
    + destruct (Split s) as [|p ps]; [contradiction|].
      change (encodeLabels (String c p :: ps))
        with (encodeLabel (String c p) ++ encodeLabels ps).
      change (encodeLabels (p :: ps))
        with (encodeLabel p ++ encodeLabels ps) in IH.
      rewrite llen_app, llen_encodeLabel in *.
      unfold len in *. simpl String.length. lia.
Qed.

(** The bytes of whole labels, counted from the name they join to. *)
Lemma llen_encodeLabels_concat (labels : list string) :
  labels <> [] ->
  llen (encodeLabels labels) = len (String.concat "." labels) + 1.
Proof.
  induction labels as [|l ls IH]; intros Hn; [contradiction Hn; reflexivity|].
  change (encodeLabels (l :: ls)) with (encodeLabel l ++ encodeLabels ls).
  rewrite llen_app, llen_encodeLabel.
  destruct ls as [|l' ls'].
  - simpl. unfold llen. simpl. lia.
  - rewrite IH by discriminate. cbn [String.concat].
    rewrite !len_append. change (len ".") with 1. lia.
Qed.

Lemma concat_wire_labels_empty (labels : list string) :
  Forall wire_label labels ->
  (len (String.concat "." labels) =? 0) = true <-> labels = [].
Proof.
  intros Hall. split.
  - destruct labels as [|l ls]; [reflexivity|]. intros H.
    inversion Hall as [|? ? Hl _]; subst. apply Z.eqb_eq in H.
    unfold wire_label in Hl. destruct ls; cbn [String.concat] in H.
    + lia.
    + rewrite len_append in H. pose proof (len_append "." (String.concat "." (s :: ls))).
      unfold len in *. lia.
  - intros ->. reflexivity.
Qed.

(** The loop never gives back bytes, and the name it returns is no longer
    than the bytes it took. *)
Lemma scan_length (fuel : nat) :
  forall (acc : string) (buf : list byte),
    let '(name, err, rest) := scan fuel acc buf in
    llen rest <= llen buf /\ len name + llen rest <= len acc + llen buf.
Proof.
  induction fuel as [|fuel IH]; intros acc buf.
  - destruct buf as [|b buf]; unfold scan, llen; simpl; lia.
  - destruct buf as [|b buf].
    + rewrite scan_nil. lia.
    + rewrite scan_cons. destruct (Z_of_byte b =? 0).
      * unfold llen. simpl List.length. lia.
      * set (n := Z.to_nat (Z_of_byte b)).
        set (label := string_of_list_byte (firstn n buf)).
        specialize (IH (joinLabel acc label) (skipn n buf)).
        destruct (scan fuel (joinLabel acc label) (skipn n buf)) as [[name err] rest].
        assert (Hj : len (joinLabel acc label) <= len acc + 1 + len label).
        { unfold joinLabel. destruct (len acc =? 0).
          - unfold len. lia.
          - rewrite !len_append. change (len ".") with 1. lia. }
        assert (Hl : len label + llen (skipn n buf) = llen buf).
        { unfold label, len, llen. rewrite length_string_of_list_byte.
          rewrite <- (firstn_skipn n buf) at 3. rewrite length_app. lia. }
        unfold llen in *. simpl List.length.
        pose proof (Zle_0_nat (String.length label)). unfold len in *. lia.
Qed.

(** X5. [writeDomainName] keeps what is in the buffer, never returns an
    error and adds exactly [len(domainName) + 2] bytes, the last of them the
    zero octet, whatever the labels of the name are: a length octet takes
    the place of every dot, one more length octet comes first and the zero
    octet last. *)
Theorem writeDomainName_appends (buf : list byte) (domainName : string) :
  exists written,
    writeDomainName buf domainName = (buf ++ written ++ [x00], None) /\
    llen written = len domainName + 1 /\
    llen (fst (writeDomainName buf domainName)) = llen buf + len domainName + 2.
Proof.
  exists (encodeLabels (Split domainName)).
  rewrite writeDomainName_bytes. split; [reflexivity|].
  split; [apply llen_encodeLabels_Split|].
  cbn [fst]. rewrite !llen_app, llen_encodeLabels_Split. unfold llen. simpl. lia.
Qed.

(** X6. [readDomainName] leaves a suffix of the buffer and returns a name
    no longer than the bytes it has taken.  Without error it has taken one
    byte for the empty name and [len(name) + 2] bytes for any other; with
    an error it has taken everything. *)
Theorem readDomainName_accounting (buf : list byte) :
  let '(name, err, rest) := readDomainName buf in
  (exists taken, buf = taken ++ rest) /\
  len name + llen rest <= llen buf /\
  match err with
  | None => llen buf = llen rest + (if len name =? 0 then 1 else len name + 2)
  | Some _ => rest = []
  end.
Proof.
  rewrite readDomainName_scan.
  pose proof (scan_spec (S (List.length buf)) "" buf (Nat.lt_succ_diag_r _)) as Hs.
  pose proof (scan_length (S (List.length buf)) "" buf) as Hl.
  destruct (scan (S (List.length buf)) "" buf) as [[name [e|]] rest].
  - destruct Hs as (_ & Hrest & _). subst rest. split; [|split].
    + exists buf. symmetry. apply app_nil_r.
    + change (len "") with 0 in Hl. lia.
    + reflexivity.
  - destruct Hs as (labels & Hall & Hbuf & Hname). split; [|split].
    + exists (encodeLabels labels ++ [x00]). rewrite <- app_assoc. exact Hbuf.
    + change (len "") with 0 in Hl. lia.
    + rewrite fold_joinLabel in Hname by exact Hall. simpl in Hname. subst name.
      pose proof (concat_wire_labels_empty labels Hall) as He.
      rewrite Hbuf at 1. rewrite llen_app.
      change (llen (x00 :: rest)) with (Z.of_nat (S (List.length rest))).
      unfold llen at 2.
      destruct (len (String.concat "." labels) =? 0) eqn:E.
      * rewrite (proj1 He eq_refl). simpl. lia.
      * rewrite llen_encodeLabels_concat; [lia|].
        intros ->. discriminate E.
Qed.

(** X7. A name read without error is read the same way whatever is
    appended to the buffer: what follows the zero octet plays no part. *)
Theorem readDomainName_extend (buf : list byte) (name : string)
    (rest extra : list byte) :
  readDomainName buf = (name, None, rest) ->
  readDomainName (buf ++ extra) = (name, None, rest ++ extra).
Proof.
  rewrite readDomainName_scan. intros H.
  pose proof (scan_spec (S (List.length buf)) "" buf (Nat.lt_succ_diag_r _)) as Hs.
  rewrite H in Hs. destruct Hs as (labels & Hall & Hbuf & Hname).
  subst name. rewrite Hbuf at 1. rewrite <- app_assoc. cbn [app].
  rewrite readDomainName_scan. apply scan_labels; [exact Hall|]. lia.
Qed.

Lemma readDomainName_extend_witness :
  readDomainName ([x03; x77; x77; x77; x00] ++ [x00; x01; x00; x01])
  = ("www", None, [] ++ [x00; x01; x00; x01]).
Proof.
  apply (readDomainName_extend [x03; x77; x77; x77; x00] "www" []).
  reflexivity.
Defined.

Lemma encodeLabels_cut (labels : list string) (tail : list byte) :
  Forall (fun l => len l <= 255) labels ->
  Forall wire_label (untilEmpty labels) /\
  encodeLabels labels ++ x00 :: tail
  = encodeLabels (untilEmpty labels) ++
    x00 :: match afterEmpty labels with
           | None => tail
           | Some post => encodeLabels post ++ x00 :: tail
           end.
Proof.
  induction 1 as [|l ls Hl Hls [IHw IHe]]; [split; [constructor | reflexivity]|].
  cbn [untilEmpty afterEmpty]. destruct (len l =? 0) eqn:E.
  - split; [constructor|]. apply Z.eqb_eq, len_0_iff in E. subst l. reflexivity.
  - apply Z.eqb_neq in E. split.
    + constructor; [|exact IHw]. unfold wire_label. unfold len in *. lia.
    + change (encodeLabels (l :: ls)) with (encodeLabel l ++ encodeLabels ls).
      change (encodeLabels (l :: untilEmpty ls))
        with (encodeLabel l ++ encodeLabels (untilEmpty ls)).
      rewrite <- !app_assoc, IHe. reflexivity.
Qed.

(** X8. Reading back a written name whose labels are at most 255 bytes
    long gives the labels before its first empty label, joined with dots:
    the length octet of the empty label is taken for the end of the name,
    and the labels after it stay in the buffer.  So "a." and "a..b" read
    back as "a", and ".a" as the empty name. *)
Theorem decode_encode_name_cut (domainName : string) (tail : list byte) :
  Forall (fun l => len l <= 255) (Split domainName) ->
  readDomainName (fst (writeDomainName [] domainName) ++ tail)
  = (String.concat "." (untilEmpty (Split domainName)), None,
     match afterEmpty (Split domainName) with
     | None => tail
     | Some post => encodeLabels post ++ x00 :: tail
     end).
Proof.
  intros Hall. rewrite writeDomainName_bytes. cbn [fst app].
  rewrite <- app_assoc. cbn [app].
  destruct (encodeLabels_cut (Split domainName) tail Hall) as [Hw He].
  rewrite He at 1. rewrite readDomainName_scan.
  rewrite scan_labels by (exact Hw || (rewrite <- He; lia)).
  rewrite fold_joinLabel by exact Hw. reflexivity.
Qed.

Lemma decode_encode_name_cut_witness :
  readDomainName (fst (writeDomainName [] "a..b") ++ [xff])
  = ("a", None, [x01; x62; x00; xff]).
Proof.
  apply (decode_encode_name_cut "a..b" [xff]).
  repeat constructor; vm_compute; discriminate.
Defined.

Lemma Split_dotFree (l : string) : dotFree l = true -> Split l = [l].
Proof.
  induction l as [|c l IH]; [reflexivity|]. simpl.
  intros H. apply andb_prop in H. destruct H as [Hc Hl].
  apply negb_true_iff in Hc. rewrite Hc, (IH Hl). reflexivity.
Qed.

Lemma Split_append_dot (l s : string) :
  dotFree l = true -> Split (l ++ String dot s)%string = l :: Split s.
Proof.
  induction l as [|c l IH]; intros H.
  - reflexivity.
  - simpl in H. apply andb_prop in H. destruct H as [Hc Hl].
    apply negb_true_iff in Hc. simpl. rewrite Hc, (IH Hl). reflexivity.
Qed.

Lemma Split_concat (labels : list string) :
  labels <> [] ->
  Forall (fun l => dotFree l = true) labels ->
  Split (String.concat "." labels) = labels.
Proof.
  induction labels as [|l ls IH]; intros Hn Hall; [contradiction Hn; reflexivity|].
  inversion Hall as [|? ? Hl Hls]; subst.
  destruct ls as [|l' ls'].
  - apply Split_dotFree. exact Hl.
  - change (String.concat "." (l :: l' :: ls'))
      with (l ++ String dot (String.concat "." (l' :: ls')))%string.
    rewrite Split_append_dot by exact Hl.
    rewrite IH by (discriminate || exact Hls). reflexivity.
Qed.

(** X9. A name made of at least one label, each of 1 to 255 bytes and
    without the byte ".", is written back as the very bytes it was read
    from.  (The empty name is not: it is read from one zero octet and
    written as two.) *)
Theorem writeDomainName_readDomainName (labels : list string) (tail : list byte) :
  labels <> [] ->
  Forall wire_label labels ->
  Forall (fun l => dotFree l = true) labels ->
  exists name,
    readDomainName (encodeLabels labels ++ x00 :: tail) = (name, None, tail) /\
    writeDomainName [] name = (encodeLabels labels ++ [x00], None).
Proof.
  intros Hn Hw Hd. exists (String.concat "." labels). split.
  - rewrite readDomainName_scan, scan_labels by (exact Hw || lia).
    rewrite fold_joinLabel by exact Hw. reflexivity.
  - rewrite writeDomainName_bytes, Split_concat by assumption. reflexivity.
Qed.

Lemma writeDomainName_readDomainName_witness :
  exists name,
    readDomainName (encodeLabels ["foo"; "ip4"] ++ x00 :: [x00; x01; x00; x01])
    = (name, None, [x00; x01; x00; x01]) /\
    writeDomainName [] name = (encodeLabels ["foo"; "ip4"] ++ [x00], None).
Proof.
  apply (writeDomainName_readDomainName ["foo"; "ip4"] [x00; x01; x00; x01]).
  - discriminate.
  - repeat constructor; vm_compute; discriminate.
  - repeat constructor.
Defined.

(** ** More on the request handler *)

Lemma readDomainName_error_drains (buf : list byte) (name : string)
    (e : error) (rest : list byte) :
  readDomainName buf = (name, Some e, rest) -> rest = [].
Proof.
  rewrite readDomainName_scan. intros H.
  pose proof (scan_spec (S (List.length buf)) "" buf (Nat.lt_succ_diag_r _)) as Hs.
  rewrite H in Hs. exact (proj1 (proj2 Hs)).
Qed.

Lemma readDomainName_rest_shorter (buf : list byte) (name : string)
    (rest : list byte) :
  readDomainName buf = (name, None, rest) ->
  (List.length rest < List.length buf)%nat.
Proof.
  rewrite readDomainName_scan. intros H.
  pose proof (scan_spec (S (List.length buf)) "" buf (Nat.lt_succ_diag_r _)) as Hs.
  rewrite H in Hs. destruct Hs as (labels & _ & Hbuf & _).
  rewrite Hbuf, length_app. simpl. lia.
Qed.

Lemma Uint16_Ok_length (l : list byte) (v : Z) :
  BigEndian.Uint16 (firstn 2 l) = Ok v -> (2 <= List.length l)%nat.
Proof.
  destruct l as [|a [|b l]]; simpl; try discriminate. intros _. lia.
Qed.

(** A question that is read takes at least five bytes: one for the name,
    two for the type and two for the class. *)
Lemma readQuestion_consumes (idx : nat) (recs recs' : list DNSResourceRecord)
    (buf buf' : list byte) :
  readQuestion idx recs buf = Ok (recs', buf') ->
  (List.length buf' + 5 <= List.length buf)%nat.
Proof.
  unfold readQuestion, Buffer.Next. change (Z.to_nat 2) with 2%nat.
  destruct (readDomainName buf) as [[name err] buf1] eqn:En.
  cbv beta iota zeta.
  destruct (BigEndian.Uint16 (firstn 2 buf1)) as [ty|] eqn:Et; cbn [bind];
    [|intros H; discriminate H].
  cbv beta iota zeta.
  destruct (BigEndian.Uint16 (firstn 2 (skipn 2 buf1))) as [cl|] eqn:Ec; cbn [bind];
    [|intros H; discriminate H].
  intros H. injection H as _ Hb.
  change (skipn 2 (skipn 2 buf1) = buf') in Hb. subst buf'.
  apply Uint16_Ok_length in Et, Ec. rewrite length_skipn in Ec.
  rewrite !length_skipn.
  destruct err as [e|].
  - apply readDomainName_error_drains in En. subst buf1. simpl in Et. lia.
  - apply readDomainName_rest_shorter in En. lia.
Qed.

Lemma readQuestions_consumes (idxs : list nat) :
  forall (recs recs' : list DNSResourceRecord) (buf buf' : list byte),
    readQuestions idxs recs buf = Ok (recs', buf') ->
    (5 * List.length idxs + List.length buf' <= List.length buf)%nat.
Proof.
  induction idxs as [|idx idxs IH]; intros recs recs' buf buf' H; simpl in H.
  - inversion H. simpl. lia.
  - destruct (readQuestion idx recs buf) as [[recs1 buf1]|] eqn:E; [|discriminate].
    simpl in H. apply IH in H. apply readQuestion_consumes in E.
    simpl List.length. lia.
Qed.

Lemma decodeRequest_overcount (req : list byte) :
  llen (snd (readHeader req)) < 5 * NumQuestions (fst (fst (readHeader req))) ->
  decodeRequest req = Panic.
Proof.
  unfold decodeRequest. destruct (readHeader req) as [[h e] body].
  cbn [fst snd]. intros Hlt.
  destruct (readQuestions _ _ body) as [[recs buf']|] eqn:E; [|reflexivity].
  exfalso. apply readQuestions_consumes in E. rewrite length_seq in E.
  unfold llen in Hlt. lia.
Qed.

Lemma readHeader_body_length (req : list byte) :
  (12 <= List.length req)%nat ->
  List.length (snd (readHeader req)) = (List.length req - 12)%nat.
Proof.
  intros H. unfold readHeader.
  do 12 (destruct req as [|? req]; [simpl in H; lia|]).
  simpl. lia.
Qed.

Lemma readQuestion_name_error (idx : nat) (recs : list DNSResourceRecord)
    (buf : list byte) :
  snd (fst (readDomainName buf)) <> None ->
  readQuestion idx recs buf = Panic.
Proof.
  unfold readQuestion.
  destruct (readDomainName buf) as [[name [e|]] rest] eqn:E; simpl;
    [|intros H; contradiction H; reflexivity].
  intros _. apply readDomainName_error_drains in E. subst rest. reflexivity.
Qed.

Lemma llen_writeDomainName (domainName : string) :
  llen (fst (writeDomainName [] domainName)) = len domainName + 2.
Proof.
  rewrite writeDomainName_bytes. cbn [fst app].
  rewrite llen_app, llen_encodeLabels_Split. unfold llen. simpl. lia.
Qed.

Lemma llen_writeQuestion (q : DNSResourceRecord) :
  llen (writeQuestion [] q) = questionSize q.
Proof.
  rewrite writeQuestion_bytes. cbn [app].
  rewrite llen_app, llen_writeDomainName. unfold questionSize, llen. simpl. lia.
Qed.

Lemma llen_writeRecord (r : DNSResourceRecord) :
  llen (writeRecord [] r) = recordSize r.
Proof.
  unfold writeRecord. rewrite writeDomainName_bytes.
  unfold Write_uint16, Write_uint32, Write_bytes. cbn [app].
  rewrite !llen_app, llen_encodeLabels_Split.
  unfold recordSize, llen. simpl. lia.
Qed.

Lemma llen_flat_map {A : Type} (f : A -> list byte) (l : list A) :
  llen (flat_map f l) = sumZ (map (fun x => llen (f x)) l).
Proof.
  induction l as [|x l IH]; [reflexivity|].
  simpl. rewrite llen_app, IH. reflexivity.
Qed.

Lemma sumZ_app (a b : list Z) : sumZ (a ++ b) = sumZ a + sumZ b.
Proof. induction a as [|x a IH]; simpl; [reflexivity | rewrite IH; lia]. Qed.

Lemma llen_writeResponse (h : DNSHeader)
    (qs ans auth add : list DNSResourceRecord) :
  llen (writeResponse h qs ans auth add)
  = 12 + sumZ (map questionSize qs)
       + sumZ (map recordSize (ans ++ auth ++ add)).
Proof.
  unfold writeResponse.
  rewrite (fold_left_append writeQuestion qs writeQuestion_append).
  rewrite !(fold_left_append writeRecord _ writeRecord_append).
  rewrite Write_header_bytes, !llen_app, !llen_flat_map.
  rewrite !map_app, !sumZ_app.
  rewrite (map_ext _ _ llen_writeQuestion), !(map_ext _ _ llen_writeRecord).
  unfold llen. simpl. lia.
Qed.

Section HandlerFurther.

Variable redisGet : string -> string.
Variable ParseIP : string -> list byte.
Variable ExpiryTimeInSeconds : Z.

Local Abbreviation lookup := (dbLookup redisGet ParseIP ExpiryTimeInSeconds).
Local Abbreviation lookups := (lookupAll redisGet ParseIP ExpiryTimeInSeconds).
Local Abbreviation handle := (handleDNSClient redisGet ParseIP ExpiryTimeInSeconds).

(** X10. A request whose header counts no question, and so every request
    of fewer than 12 bytes, whose header is left at its zero value, gets the
    header alone as response: 12 bytes, the transaction ID read, the
    response flag and four zero counts, whatever follows the header in the
    request and whatever the store holds. *)
Theorem handleDNSClient_no_question (req : list byte) :
  NumQuestions (fst (fst (readHeader req))) = 0 ->
  handle req = Ok (Write_header [] (headerOnly (fst (fst (readHeader req))))) /\
  List.length (Write_header [] (headerOnly (fst (fst (readHeader req))))) = 12%nat /\
  ((List.length req < 12)%nat -> fst (fst (readHeader req)) = zeroHeader).
Proof.
  intros Hq. split; [|split].
  - unfold handleDNSClient, decodeRequest.
    destruct (readHeader req) as [[h e] body]. cbn [fst snd] in *.
    rewrite Hq. cbn. unfold encodeResponse, writeResponse, makeResponseHeader.
    cbn. rewrite Hq. reflexivity.
  - rewrite Write_header_bytes. reflexivity.
  - intros Hlen. unfold readHeader.
    do 12 (destruct req as [|? req]; [reflexivity|]).
    simpl in Hlen. lia.
Qed.

(** X11. A request whose header counts more questions than a fifth of the
    bytes that follow it makes the handler panic: every question that is
    read takes at least five bytes, and once the buffer is used up [Uint16]
    is applied to a slice of fewer than two bytes. *)
Theorem handleDNSClient_overcount (req : list byte) :
  llen (snd (readHeader req)) < 5 * NumQuestions (fst (fst (readHeader req))) ->
  handle req = Panic.
Proof.
  intros H. unfold handleDNSClient.
  rewrite decodeRequest_overcount by exact H. reflexivity.
Qed.

(** X12. Every datagram whose header counts more than 100 questions makes
    the server panic: the 500 bytes that follow the header in the receive
    buffer hold at most 100 questions. *)
Theorem serve_overcount (datagram : list byte) :
  100 < NumQuestions (fst (fst (readHeader (receiveBuffer datagram)))) ->
  serve redisGet ParseIP ExpiryTimeInSeconds datagram = Panic.
Proof.
  intros H. unfold serve, handleDNSClient.
  rewrite decodeRequest_overcount; [reflexivity|].
  unfold llen. rewrite readHeader_body_length, receiveBuffer_length;
    rewrite ?receiveBuffer_length; lia.
Qed.

(** X13. A first question whose name fails to decode makes the handler
    panic: the error is logged and the loop goes on, but the failed read has
    drained the buffer, so that [Next(2)] returns an empty slice for the
    type. *)
Theorem handleDNSClient_name_error (req : list byte) :
  1 <= NumQuestions (fst (fst (readHeader req))) ->
  snd (fst (readDomainName (snd (readHeader req)))) <> None ->
  handle req = Panic.
Proof.
  intros Hq He. unfold handleDNSClient, decodeRequest.
  destruct (readHeader req) as [[h e] body]. cbn [fst snd] in *.
  destruct (Z.to_nat (NumQuestions h)) as [|n] eqn:En; [lia|].
  cbn [seq readQuestions].
  rewrite readQuestion_name_error by exact He. reflexivity.
Qed.

(** X14. A well-formed query is answered, and the response carries after
    its header the question bytes of the request, byte for byte; its header
    has the transaction ID and the question count of the request.  Well
    formed: header and questions as [Write] and [writeDomainName] put them
    down, names with labels of 1 to 255 bytes; answered: no name for which
    the store holds a string that is no address. *)
Theorem handleDNSClient_echoes_questions (h : DNSHeader)
    (qs : list DNSResourceRecord) (tail : list byte) :
  header_in_range h ->
  NumQuestions h = llen qs ->
  Forall (fun q => record_in_range q /\ question_only q) qs ->
  (forall q, In q qs ->
     redisGet (DomainName q) = "" \/
     16 <= llen (ParseIP (redisGet (DomainName q)))) ->
  exists h' records,
    handle (Write_header [] h ++ flat_map (writeQuestion []) qs ++ tail)
    = Ok (Write_header [] h' ++ flat_map (writeQuestion []) qs ++ records) /\
    TransactionID h' = TransactionID h /\
    NumQuestions h' = NumQuestions h.
Proof.
  intros Hh Hn Hqs Hstore. unfold handleDNSClient.
  rewrite decodeRequest_written by assumption. cbn [bind].
  destruct (lookupAll_returns redisGet ParseIP ExpiryTimeInSeconds qs)
    with (acc := ([], [], []) : Lookup) as [[[ans auth] add] Hl].
  - intros q Hin HP.
    apply (dbLookup_Panic_inv redisGet ParseIP ExpiryTimeInSeconds) in HP.
    destruct HP as (_ & _ & _ & Hv & Hp).
    destruct (Hstore q Hin) as [H0|H16]; [contradiction | lia].
  - rewrite Hl. cbn [bind]. unfold encodeResponse, writeResponse.
    rewrite (fold_left_append writeQuestion qs writeQuestion_append).
    rewrite !(fold_left_append writeRecord _ writeRecord_append).
    rewrite <- !app_assoc.
    eexists _, _. split; [reflexivity|]. split; reflexivity.
Qed.

(** X15. The lookups of a request are those of its questions, one after
    the other: when the resolver returns for every question, the answers of
    the response are the answers of the questions concatenated in question
    order, and so are the authorities and the additionals. *)
Theorem lookupAll_concatenates (qs : list DNSResourceRecord) (rs : list Lookup) :
  Forall2 (fun q r => lookup q = Ok r) qs rs ->
  forall ans0 auth0 add0,
    lookups qs (ans0, auth0, add0)
    = Ok (ans0 ++ flat_map (fun r => fst (fst r)) rs,
          auth0 ++ flat_map (fun r => snd (fst r)) rs,
          add0 ++ flat_map snd rs).
Proof.
  induction 1 as [|q r qs rs Hq Hqs IH]; intros ans0 auth0 add0.
  - simpl. rewrite !app_nil_r. reflexivity.
  - cbn [lookupAll]. rewrite Hq. destruct r as [[a u] d]. cbn [bind].
    rewrite IH. cbn [flat_map fst snd]. rewrite !app_assoc. reflexivity.
Qed.

(** X16. The lookups of a request panic exactly when the resolver panics
    on one of its questions: one such question leaves the whole request
    without response. *)
Theorem lookupAll_Panic_iff (qs : list DNSResourceRecord) (acc : Lookup) :
  lookups qs acc = Panic <-> Exists (fun q => lookup q = Panic) qs.
Proof.
  revert acc. induction qs as [|q qs IH]; intros [[ans auth] add].
  - simpl. split; [discriminate | intros H; inversion H].
  - cbn [lookupAll]. destruct (lookup q) as [[[a u] d]|] eqn:E; cbn [bind].
    + rewrite IH. split.
      * intros H. right. exact H.
      * intros H. inversion H as [? ? Hq|? ? Hx]; subst;
          [rewrite E in Hq; discriminate Hq | exact Hx].
    + split; [intros _; left; exact E | reflexivity].
Qed.

Lemma lookupAll_count (qs : list DNSResourceRecord) :
  forall ans0 auth0 add0 ans auth add,
    lookups qs (ans0, auth0, add0) = Ok (ans, auth, add) ->
    (List.length ans + List.length add
     <= List.length ans0 + List.length add0 + List.length qs)%nat.
Proof.
  induction qs as [|q qs IH]; intros ans0 auth0 add0 ans auth add H; simpl in H.
  - inversion H; subst. lia.
  - destruct (lookup q) as [[[a u] d]|] eqn:E; simpl in H; [|discriminate].
    apply IH in H. rewrite !length_app in H.
    apply dbLookup_shape_cases in E.
    destruct E as [[Ha Hd]|[(r & Ha & Hd & _)|(r & Ha & Hd & _)]];
      subst a d; simpl in *; lia.
Qed.

(** X17. Every response the handler sends is 12 bytes of header, then for
    each question its name and 6 more bytes, then for each record its name
    and 12 more bytes and its data. *)
Theorem response_length (req resp : list byte) :
  handle req = Ok resp ->
  exists queryHeader qs ans add,
    decodeRequest req = Ok (queryHeader, qs) /\
    lookups qs ([], [], []) = Ok (ans, [], add) /\
    llen resp = 12 + sumZ (map questionSize qs)
                   + sumZ (map recordSize (ans ++ add)).
Proof.
  intros H. apply handleDNSClient_inv in H.
  destruct H as (qh & qs & ans & add & Hd & Hl & Hresp & _).
  exists qh, qs, ans, add. split; [exact Hd|]. split; [exact Hl|].
  subst resp. unfold encodeResponse. rewrite llen_writeResponse. reflexivity.
Qed.

(** X18. A response never carries more answers and additionals, taken
    together, than the request has questions. *)
Theorem response_records_bounded (req resp : list byte) :
  handle req = Ok resp ->
  NumAnswers (fst (fst (readHeader resp)))
  + NumAdditionals (fst (fst (readHeader resp)))
  <= NumQuestions (fst (fst (readHeader resp))).
Proof.
  intros H. apply handleDNSClient_inv in H.
  destruct H as (qh & qs & ans & add & Hd & Hl & Hresp & Hr & Ha & Hadd).
  destruct (writeResponse_header (makeResponseHeader qh ans [] add) qs ans [] add)
    as [body Hb].
  subst resp. unfold encodeResponse.
  rewrite Hb, readHeader_Write_header by exact Hr. cbn [fst].
  apply decodeRequest_inv in Hd. destruct Hd as (_ & _ & Hq).
  apply lookupAll_count in Hl. simpl in Hl.
  unfold makeResponseHeader. cbn [NumAnswers NumAdditionals NumQuestions].
  rewrite !uint16_small, Hq by (unfold llen in *; lia).
  unfold llen. lia.
Qed.

End HandlerFurther.

Section OversizeResponse.

Variable redisGet : string -> string.
Variable ParseIP : string -> list byte.
Variable ExpiryTimeInSeconds : Z.

Hypothesis ParseIP_len :
  forall s, ParseIP s = [] \/ List.length (ParseIP s) = 16%nat.

Local Abbreviation handle := (handleDNSClient redisGet ParseIP ExpiryTimeInSeconds).

(** X19. The response to a query with one type A question for an "ip4"
    name of [n] bytes that the store resolves takes [2 * n + 34] bytes; for
    a name of 240 bytes or more, which a datagram of 512 bytes has room for,
    that is more than [UDPMaxMessageSizeBytes], and the response is sent as
    it is. *)
Theorem response_over_512 (h : DNSHeader) (q : DNSResourceRecord)
    (tail : list byte) :
  header_in_range h -> NumQuestions h = 1 ->
  record_in_range q -> question_only q ->
  Class q = ClassINET -> Type_ q = TypeA ->
  Contains (DomainName q) "ip4" = true ->
  redisGet (DomainName q) <> "" ->
  ParseIP (redisGet (DomainName q)) <> [] ->
  exists resp,
    handle (Write_header [] h ++ writeQuestion [] q ++ tail) = Ok resp /\
    llen resp = 2 * len (DomainName q) + 34 /\
    (240 <= len (DomainName q) -> UDPMaxMessageSizeBytes < llen resp).
Proof.
  intros Hh Hn Hr Hq Hc Ht Hip Hv Hp.
  replace (writeQuestion [] q ++ tail)
    with (flat_map (writeQuestion []) [q] ++ tail)
    by (cbn [flat_map]; rewrite app_nil_r; reflexivity).
  unfold handleDNSClient.
  rewrite decodeRequest_written;
    [|exact Hh|exact Hn|constructor; [split; assumption | constructor]].
  cbn [bind lookupAll].
  rewrite (dbLookup_ip4_A redisGet ParseIP ExpiryTimeInSeconds ParseIP_len)
    by assumption.
  cbn [bind app lookupAll]. eexists. split; [reflexivity|].
  assert (Hlen : llen (encodeResponse h [q]
                   [recordA redisGet ParseIP ExpiryTimeInSeconds q] [] [])
                 = 2 * len (DomainName q) + 34).
  { unfold encodeResponse. rewrite llen_writeResponse.
    cbn [map app sumZ fold_right]. unfold questionSize, recordSize.
    cbn [DomainName ResourceData recordA]. unfold llen.
    rewrite (length_ipv4 ParseIP ParseIP_len) by exact Hp. lia. }
  split; [exact Hlen|]. intros Hbig. rewrite Hlen.
  change UDPMaxMessageSizeBytes with 512. lia.
Qed.

End OversizeResponse.

Lemma handleDNSClient_no_question_witness :
  handleDNSClient exampleStore exampleParseIP 1800 [x12; x34]
  = Ok [x00; x00; x80; x00; x00; x00; x00; x00; x00; x00; x00; x00] /\
  handleDNSClient exampleStore exampleParseIP 1800
    [x12; x34; x01; x00; x00; x00; x00; x00; x00; x00; x00; x00; xde; xad]
  = Ok [x12; x34; x80; x00; x00; x00; x00; x00; x00; x00; x00; x00].
Proof.
  split.
  - exact (proj1 (handleDNSClient_no_question exampleStore exampleParseIP 1800
                    [x12; x34] eq_refl)).
  - exact (proj1 (handleDNSClient_no_question exampleStore exampleParseIP 1800
                    [x12; x34; x01; x00; x00; x00; x00; x00; x00; x00; x00; x00;
                     xde; xad] eq_refl)).
Defined.

Lemma handleDNSClient_overcount_witness :
  handleDNSClient exampleStore exampleParseIP 1800
    [x12; x34; x01; x00; x00; x02; x00; x00; x00; x00; x00; x00;
     x03; x66; x6f; x6f; x03; x69; x70; x34; x00]
  = Panic.
Proof.
  apply (handleDNSClient_overcount exampleStore exampleParseIP 1800).
  vm_compute. reflexivity.
Defined.

Lemma serve_overcount_witness :
  serve exampleStore exampleParseIP 1800
    [x12; x34; x01; x00; x00; x65; x00; x00; x00; x00; x00; x00;
     x03; x66; x6f; x6f; x03; x69; x70; x34; x00; x00; x01; x00; x01]
  = Panic.
Proof.
  apply (serve_overcount exampleStore exampleParseIP 1800).
  vm_compute. reflexivity.
Defined.

Lemma handleDNSClient_name_error_witness :
  handleDNSClient exampleStore exampleParseIP 1800
    [x12; x34; x01; x00; x00; x01; x00; x00; x00; x00; x00; x00;
     x03; x66; x6f; x6f; x03; x69; x70; x34]
  = Panic.
Proof.
  apply (handleDNSClient_name_error exampleStore exampleParseIP 1800).
  - vm_compute. discriminate.
  - vm_compute. discriminate.
Defined.

Lemma handleDNSClient_echoes_questions_witness :
  exists h' records,
    handleDNSClient exampleStore exampleParseIP 1800
      (Write_header []
         {| TransactionID := 4660; Flags := 256; NumQuestions := 2;
            NumAnswers := 0; NumAuthorities := 0; NumAdditionals := 0 |} ++
       flat_map (writeQuestion []) [question "foo.ip4" TypeA; question "bar.ip6" TypeA] ++
       [xde; xad])
    = Ok (Write_header [] h' ++
          flat_map (writeQuestion []) [question "foo.ip4" TypeA; question "bar.ip6" TypeA] ++
          records) /\
    TransactionID h' = 4660 /\ NumQuestions h' = 2.
Proof.
  apply (handleDNSClient_echoes_questions exampleStore exampleParseIP 1800
           {| TransactionID := 4660; Flags := 256; NumQuestions := 2;
              NumAnswers := 0; NumAuthorities := 0; NumAdditionals := 0 |}
           [question "foo.ip4" TypeA; question "bar.ip6" TypeA] [xde; xad]).
  - repeat split; vm_compute; discriminate.
  - reflexivity.
  - repeat constructor; unfold wire_label; vm_compute; discriminate.
  - intros q [Hq|[Hq|[]]]; subst q; right; vm_compute; discriminate.
Defined.

Lemma lookupAll_concatenates_witness :
  lookupAll exampleStore exampleParseIP 1800
    [question "foo.ip4" TypeA; question "absent.ip4" TypeA; question "bar.ip6" TypeA]
    ([], [], [])
  = Ok ([recordA exampleStore exampleParseIP 1800 (question "foo.ip4" TypeA)],
        [],
        [recordAAAA exampleStore exampleParseIP 1800 (question "bar.ip6" TypeA)]).
Proof.
  apply (lookupAll_concatenates exampleStore exampleParseIP 1800
           [question "foo.ip4" TypeA; question "absent.ip4" TypeA;
            question "bar.ip6" TypeA]
           [([recordA exampleStore exampleParseIP 1800 (question "foo.ip4" TypeA)], [], []);
            ([], [], []);
            ([], [], [recordAAAA exampleStore exampleParseIP 1800 (question "bar.ip6" TypeA)])]).
  repeat constructor.
Defined.

Lemma response_length_witness :
  exists resp,
    serve exampleStore exampleParseIP 1800 exampleQuery = Ok resp /\
    exists queryHeader qs ans add,
      decodeRequest (receiveBuffer exampleQuery) = Ok (queryHeader, qs) /\
      lookupAll exampleStore exampleParseIP 1800 qs ([], [], []) = Ok (ans, [], add) /\
      llen resp = 12 + sumZ (map questionSize qs)
                     + sumZ (map recordSize (ans ++ add)).
Proof.
  eexists. split.
  - vm_compute. reflexivity.
  - apply (response_length exampleStore exampleParseIP 1800
             (receiveBuffer exampleQuery)).
    vm_compute. reflexivity.
Defined.

Lemma response_records_bounded_witness :
  exists resp,
    serve exampleStore exampleParseIP 1800 exampleQuery2 = Ok resp /\
    NumAnswers (fst (fst (readHeader resp)))
    + NumAdditionals (fst (fst (readHeader resp)))
    <= NumQuestions (fst (fst (readHeader resp))).
Proof.
  eexists. split.
  - vm_compute. reflexivity.
  - apply (response_records_bounded exampleStore exampleParseIP 1800
             (receiveBuffer exampleQuery2)).
    vm_compute. reflexivity.
Defined.

Lemma response_over_512_witness :
  exists resp,
    handleDNSClient loopbackStore exampleParseIP 1800
      (Write_header [] (header exampleQuestionOnly) ++
       writeQuestion [] (question longName TypeA) ++ [])
    = Ok resp /\
    llen resp = 2 * len longName + 34 /\
    (240 <= len longName -> UDPMaxMessageSizeBytes < llen resp).
Proof.
  apply (response_over_512 loopbackStore exampleParseIP 1800 exampleParseIP_len
           (header exampleQuestionOnly) (question longName TypeA) []).
  - repeat split; vm_compute; discriminate.
  - reflexivity.
  - repeat split; try (vm_compute; discriminate).
    vm_compute Split. repeat constructor; vm_compute; discriminate.
  - repeat split.
  - reflexivity.
  - reflexivity.
  - vm_compute. reflexivity.
  - vm_compute. discriminate.
  - vm_compute. discriminate.
Defined.


(** X20. The question of a query for the empty name is not echoed byte
    for byte: the handler reads it from one zero octet, type and class, and
    writes it with two zero octets before type and class, since
    [strings.Split] gives one empty label for the empty name. *)
Theorem root_question_not_echoed (ty cl : Z) (tail : list byte) :
  0 <= ty < 2 ^ 16 -> 0 <= cl < 2 ^ 16 ->
  let q := {| DomainName := ""; Type_ := ty; Class := cl; TimeToLive := 0;
              ResourceDataLength := 0; ResourceData := [] |} in
  let fields := [byte_of_Z (Z.shiftr ty 8); byte_of_Z ty;
                 byte_of_Z (Z.shiftr cl 8); byte_of_Z cl] in
  readQuestion 0 [zeroRecord] (x00 :: fields ++ tail) = Ok ([q], tail) /\
  writeQuestion [] q = x00 :: x00 :: fields.
Proof.
  intros Hty Hcl q fields. split.
  - unfold readQuestion, Buffer.Next, BigEndian.Uint16.
    change (readDomainName (x00 :: fields ++ tail)) with ("", None : option error, fields ++ tail).
    cbv beta iota zeta. change (Z.to_nat 2) with 2%nat.
    unfold fields. cbn [firstn skipn app bind].
    rewrite !be16_Write by assumption. reflexivity.
  - rewrite writeQuestion_bytes. reflexivity.
Qed.

Lemma root_question_not_echoed_witness :
  readQuestion 0 [zeroRecord] [x00; x00; x02; x00; x01; xde; xad]
  = Ok ([ {| DomainName := ""; Type_ := 2; Class := 1; TimeToLive := 0;
             ResourceDataLength := 0; ResourceData := [] |} ], [xde; xad]) /\
  writeQuestion [] {| DomainName := ""; Type_ := 2; Class := 1; TimeToLive := 0;
                      ResourceDataLength := 0; ResourceData := [] |}
  = [x00; x00; x00; x02; x00; x01].
Proof.
  apply (root_question_not_echoed 2 1 [xde; xad]); lia.
Defined.
